(** * boat_streamlit: the inference core of [streamlit/app.py]

    A shallow embedding of the three pieces of [app.py] that carry logic:
    - [extract_threshold_from_filename] (threshold recovered from a model
      file name),
    - [prepare_df] (feature derivation over a pandas DataFrame),
    - the top-level inference script (schema alignment, lane routing,
      scoring, binarisation and reassembly).

    Python values are modelled as follows.
    - A Python [str] is a list of Unicode code points ([pystr]); column
      names and dictionary keys, which are only compared and concatenated,
      are kept as Rocq strings holding the UTF-8 bytes of the source text.
    - A float64 is a primitive IEEE-754 binary64 [float]; NaN is [nan].
    - A DataFrame is an ordered list of named columns of cells.
    - Exceptions are values of [exn] carried by [result]. *)

From Stdlib Require Import String Ascii ZArith NArith List Bool Lia.
From Stdlib Require Import Floats.
From Stdlib Require Import QArith Qfield DecimalString.
Import ListNotations.

#[local] Set Warnings "-inexact-float".

Local Open Scope N_scope.

(** ** Exceptions *)

Inductive exn :=
| KeyError (k : string)
| ValueError
| TypeError
| OverflowError
| FileNotFoundError
| LightGBMError.

Inductive result (A : Type) :=
| Ok (a : A)
| Raise (e : exn).
Arguments Ok {A} a.
Arguments Raise {A} e.

Definition rbind {A B} (m : result A) (k : A -> result B) : result B :=
  match m with
  | Ok a => k a
  | Raise e => Raise e
  end.

Declare Scope result_scope.
Delimit Scope result_scope with result.
Notation "x <- m ;; k" := (rbind m (fun x => k))
  (at level 61, m at next level, right associativity) : result_scope.

(** ** Python strings *)

Definition pystr := list N.

(** UTF-8 decoding, used only to write string literals of the source. *)
Fixpoint utf8_go (bs : list N) (need : nat) (acc : N) : pystr :=
  match bs with
  | [] => []
  | b :: rest =>
      match need with
      | O =>
          if b <? 128 then b :: utf8_go rest 0 0
          else if b <? 224 then utf8_go rest 1 (b - 192)
          else if b <? 240 then utf8_go rest 2 (b - 224)
          else utf8_go rest 3 (b - 240)
      | S O => (acc * 64 + (b - 128)) :: utf8_go rest 0 0
      | S n => utf8_go rest n (acc * 64 + (b - 128))
      end
  end.

Definition u (s : string) : pystr :=
  utf8_go (map N_of_ascii (list_ascii_of_string s)) 0 0.

Definition pystr_eqb (a b : pystr) : bool :=
  if list_eq_dec N.eq_dec a b then true else false.

(** Code points used below. *)
Definition ch_slash : N := 47.
Definition ch_underscore : N := 95.
Definition ch_dot : N := 46.
Definition ch_newline : N := 10.
Definition ch_plus : N := 43.
Definition ch_minus : N := 45.
Definition ch_space : N := 32.
Definition ch_percent : N := 37.
Definition ch_nbsp : N := 160.

(** [str.isspace] of one character (Unicode 14, as in CPython 3.11). *)
Definition py_isspace (c : N) : bool :=
  ((9 <=? c) && (c <=? 13)) || ((28 <=? c) && (c <=? 32))
  || (c =? 133) || (c =? 160) || (c =? 5760)
  || ((8192 <=? c) && (c <=? 8202))
  || (c =? 8232) || (c =? 8233) || (c =? 8239) || (c =? 8287)
  || (c =? 12288).

(** The Unicode category Nd: runs of code points [start, start+len); the
    decimal value of a member is its offset in the run modulo 10. *)
Definition nd_runs : list (N * N) :=
  [(48, 10); (1632, 10); (1776, 10); (1984, 10); (2406, 10); (2534, 10);
   (2662, 10); (2790, 10); (2918, 10); (3046, 10); (3174, 10); (3302, 10);
   (3430, 10); (3558, 10); (3664, 10); (3792, 10); (3872, 10); (4160, 10);
   (4240, 10); (6112, 10); (6160, 10); (6470, 10); (6608, 10); (6784, 10);
   (6800, 10); (6992, 10); (7088, 10); (7232, 10); (7248, 10); (42528, 10);
   (43216, 10); (43264, 10); (43472, 10); (43504, 10); (43600, 10);
   (44016, 10); (65296, 10); (66720, 10); (68912, 10); (69734, 10);
   (69872, 10); (69942, 10); (70096, 10); (70384, 10); (70736, 10);
   (70864, 10); (71248, 10); (71360, 10); (71472, 10); (71904, 10);
   (72016, 10); (72784, 10); (73040, 10); (73120, 10); (92768, 10);
   (92864, 10); (93008, 10); (120782, 50); (123200, 10); (123632, 10);
   (125264, 10); (130032, 10)].

Fixpoint decimal_in (runs : list (N * N)) (c : N) : option N :=
  match runs with
  | [] => None
  | (start, len) :: rest =>
      if (start <=? c) && (c <? start + len)
      then Some ((c - start) mod 10)
      else decimal_in rest c
  end.

(** [Py_UNICODE_TODECIMAL]: the digit value of a decimal digit. *)
Definition unicode_decimal (c : N) : option N := decimal_in nd_runs c.

(** The regular-expression class [\d] on [str] patterns. *)
Definition is_digit (c : N) : bool :=
  match unicode_decimal c with Some _ => true | None => false end.

Definition is_ascii_digit (c : N) : bool := (48 <=? c) && (c <=? 57).

(** [s.strip()] *)
Fixpoint lstrip (s : pystr) : pystr :=
  match s with
  | c :: rest => if py_isspace c then lstrip rest else s
  | [] => []
  end.

Definition rstrip (s : pystr) : pystr := rev (lstrip (rev s)).
Definition strip (s : pystr) : pystr := rstrip (lstrip s).

(** [s.replace(c, '')] for a one-character [c]. *)
Definition remove_char (c : N) (s : pystr) : pystr :=
  filter (fun d => negb (d =? c)) s.

(** Longest prefix of characters satisfying [p], and the rest. *)
Fixpoint span (p : N -> bool) (s : pystr) : pystr * pystr :=
  match s with
  | c :: rest =>
      if p c then let (a, b) := span p rest in (c :: a, b) else ([], s)
  | [] => ([], [])
  end.

(** Decimal value of a run of digits, most significant first. *)
Definition digits_value (ds : pystr) : N :=
  fold_left
    (fun acc c => acc * 10 + match unicode_decimal c with Some d => d | None => 0 end)
    ds 0.

(** ** Python's [float(str)]

    [PyFloat_FromString]: Unicode digits and spaces are first mapped to
    ASCII, underscores between digits are removed, ASCII white space is
    stripped, and the rest must be a decimal literal, an infinity or a NaN.
    [None] stands for the [ValueError] that [float] raises. *)

(** The correctly rounded binary64 value of [(-1)^neg * m * 10^e10]. *)
Definition float_of_decimal (neg : bool) (m : N) (e10 : Z) : float :=
  let num := (Z.of_N m * (if 0 <=? e10 then 10 ^ e10 else 1))%Z in
  let den := (if 0 <=? e10 then 1 else 10 ^ (- e10))%Z in
  match num, den with
  | Zpos n, Zpos d =>
      SF2Prim (SFdiv prec emax (S754_finite neg n 0) (S754_finite false d 0))
  | _, _ => if neg then neg_zero else zero
  end.

(** [_PyUnicode_TransformDecimalAndSpaceToASCII]; the output is cut after
    the first character that is neither ASCII, a space nor a digit. *)
Fixpoint transform_chars (s : pystr) : pystr :=
  match s with
  | [] => []
  | c :: rest =>
      if c <? 127 then c :: transform_chars rest
      else if py_isspace c then ch_space :: transform_chars rest
      else match unicode_decimal c with
           | Some d => (48 + d) :: transform_chars rest
           | None => [63]
           end
  end.

Definition transform_decimal_and_space (s : pystr) : pystr :=
  if forallb (fun c => c <? 128) s then s else transform_chars s.

(** [_Py_string_to_number_with_underscores]: an underscore must stand
    between two ASCII digits. *)
Fixpoint strip_underscores (prev : N) (s : pystr) : option pystr :=
  match s with
  | [] => if prev =? ch_underscore then None else Some []
  | c :: rest =>
      if c =? ch_underscore then
        if is_ascii_digit prev then strip_underscores c rest else None
      else if (prev =? ch_underscore) && negb (is_ascii_digit c) then None
      else option_map (cons c) (strip_underscores c rest)
  end.

Definition number_with_underscores (s : pystr) : option pystr :=
  if existsb (fun c => c =? ch_underscore) s then strip_underscores 0 s
  else Some s.

(** [Py_ISSPACE] *)
Definition c_isspace (c : N) : bool := ((9 <=? c) && (c <=? 13)) || (c =? 32).

Fixpoint drop_while (p : N -> bool) (s : pystr) : pystr :=
  match s with
  | c :: rest => if p c then drop_while p rest else s
  | [] => []
  end.

Definition split_sign (s : pystr) : bool * pystr :=
  match s with
  | c :: rest =>
      if c =? ch_minus then (true, rest)
      else if c =? ch_plus then (false, rest)
      else (false, s)
  | [] => (false, [])
  end.

(** What may follow the mantissa: nothing, or [e], an optional sign and
    at least one digit. *)
Definition parse_exponent (s : pystr) : option Z :=
  match s with
  | [] => Some 0%Z
  | c :: rest =>
      if (c =? 101) || (c =? 69) then
        let (neg, r) := split_sign rest in
        let (ds, tail) := span is_ascii_digit r in
        match ds, tail with
        | _ :: _, [] =>
            Some (if neg then (- Z.of_N (digits_value ds))%Z
                  else Z.of_N (digits_value ds))
        | _, _ => None
        end
      else None
  end.

(** An unsigned decimal literal: its digits as one integer and the power
    of ten that scales it. *)
Definition parse_decimal (s : pystr) : option (N * Z) :=
  let (ip, r1) := span is_ascii_digit s in
  let (fp, r2) :=
    match r1 with
    | c :: rest => if c =? ch_dot then span is_ascii_digit rest else ([], r1)
    | [] => ([], [])
    end in
  match ip ++ fp with
  | [] => None
  | _ :: _ =>
      match parse_exponent r2 with
      | Some e => Some (digits_value (ip ++ fp), (e - Z.of_nat (length fp))%Z)
      | None => None
      end
  end.

Definition to_lower (c : N) : N :=
  if (65 <=? c) && (c <=? 90) then c + 32 else c.

(** [_Py_parse_inf_or_nan] *)
Definition parse_inf_or_nan (s : pystr) : option float :=
  let (neg, r) := split_sign s in
  let l := map to_lower r in
  if pystr_eqb l (u "inf") || pystr_eqb l (u "infinity")
  then Some (if neg then neg_infinity else infinity)
  else if pystr_eqb l (u "nan") then Some nan
  else None.

(** [PyOS_string_to_double], required to consume the whole string. *)
Definition string_to_double (s : pystr) : option float :=
  let (neg, r) := split_sign s in
  match parse_decimal r with
  | Some (m, e) => Some (float_of_decimal neg m e)
  | None => parse_inf_or_nan s
  end.

Definition py_float (s : pystr) : option float :=
  match number_with_underscores (transform_decimal_and_space s) with
  | None => None
  | Some t =>
      match drop_while c_isspace t with
      | [] => None
      | c :: rest => string_to_double (rev (drop_while c_isspace (rev (c :: rest))))
      end
  end.

(** ** Signals shown to the user ([st.warning], [st.error], [st.success]) *)

Inductive signal :=
| warning_threshold_default (filename : pystr)
| warning_missing_columns (cols : list string)
| error_model_file_not_found
| error_model_load (e : exn)
| success_model_loaded (venue : string)
| warning_venue_not_registered (venue : string)
| warning_venue_not_selected.

(** ** [extract_threshold_from_filename] *)

(** [os.path.basename] on a POSIX path: what follows the last slash. *)
Definition basename (p : pystr) : pystr :=
  rev (fst (span (fun c => negb (c =? ch_slash)) (rev p))).

Fixpoint strip_prefix (p s : pystr) : option pystr :=
  match p, s with
  | [], _ => Some s
  | a :: p', b :: s' => if a =? b then strip_prefix p' s' else None
  | _ :: _, [] => None
  end.

(** The anchor [$] without [re.MULTILINE]: the end of the string, or just
    before a newline that ends the string. *)
Definition at_end (s : pystr) : bool :=
  match s with
  | [] => true
  | [c] => c =? ch_newline
  | _ => false
  end.

(** The pattern [_(\d+\.\d+)\.txt$] matched at the head of [s]; the result
    is group 1.  Each [\d+] is greedy and is followed by a literal dot, so
    the only run of digits that can lead to a match is the longest one. *)
Definition match_here (s : pystr) : option pystr :=
  match s with
  | c :: r0 =>
      if c =? ch_underscore then
        let (d1, r1) := span is_digit r0 in
        match d1, r1 with
        | _ :: _, c1 :: r2 =>
            if c1 =? ch_dot then
              let (d2, r3) := span is_digit r2 in
              match d2, strip_prefix (u ".txt") r3 with
              | _ :: _, Some tail =>
                  if at_end tail then Some (d1 ++ ch_dot :: d2) else None
              | _, _ => None
              end
            else None
        | _, _ => None
        end
      else None
  | [] => None
  end.

(** [re.search]: the leftmost position at which the pattern matches. *)
Fixpoint re_search (s : pystr) : option pystr :=
  match s with
  | [] => None
  | _ :: rest =>
      match match_here s with
      | Some g => Some g
      | None => re_search rest
      end
  end.

Definition default_threshold : float := 0.5%float.

(** The function returns the threshold together with the warning it
    emits, if any; [float] raising would surface as [Raise ValueError]. *)
Definition extract_threshold_from_filename (file_path : pystr)
  : result float * list signal :=
  let filename := basename file_path in
  match re_search filename with
  | Some g =>
      match py_float g with
      | Some threshold => (Ok threshold, [])
      | None => (Raise ValueError, [])
      end
  | None => (Ok default_threshold, [warning_threshold_default filename])
  end.

(** [MODEL_PATHS]: venue name to the two model files. *)
Inductive lane_group := course_1 | course_6.

Definition MODEL_PATHS : list (string * (pystr * pystr)) :=
  [ ("桐生"%string,
      (u "モデル/一月用モデル/桐生1_5_78910_56位モデル_0125_0.68.txt",
       u "モデル/一月用モデル/桐生6_78910_56位モデル_0125_0.64.txt"));
    ("びわこ"%string,
      (u "モデル/一月用モデル/びわこ1_5_78910_456位モデル_0125_0.79.txt",
       u "モデル/一月用モデル/びわこ6_78910_56位モデル_0125_0.63.txt"));
    ("津"%string,
      (u "モデル/一月用モデル/津1_5_78910_456位モデル_0125_0.72.txt",
       u "モデル/一月用モデル/津6_78910_456位モデル_0125_0.83.txt"));
    ("江戸川"%string,
      (u "モデル/一月用モデル/江戸川1_5_78910_456位モデル_0125_0.82.txt",
       u "モデル/一月用モデル/江戸川6_78910_3456位モデル_0125_0.95.txt"));
    ("徳山"%string,
      (u "モデル/一月用モデル/徳山1_5_78910_56位モデル_0125_0.68.txt",
       u "モデル/一月用モデル/徳山6_78910_56位モデル_0125_0.74.txt"));
    ("下関"%string,
      (u "モデル/一月用モデル/下関1_5_78910_56位モデル_0125_0.8.txt",
       u "モデル/一月用モデル/下関6_78910_56位モデル_0125_0.53.txt"));
    ("福岡"%string,
      (u "モデル/一月用モデル/福岡1_5_78910_456位モデル_0125_0.76.txt",
       u "モデル/一月用モデル/福岡6_78910_456位モデル_0125_0.82.txt")) ].

Fixpoint lookup {A} (k : string) (d : list (string * A)) : option A :=
  match d with
  | [] => None
  | (k', v) :: rest => if String.eqb k k' then Some v else lookup k rest
  end.

Definition model_path (entry : pystr * pystr) (g : lane_group) : pystr :=
  match g with
  | course_1 => fst entry
  | course_6 => snd entry
  end.

(** ** Arithmetic shared by the program and by its algebra

    The formulas of [prepare_df] are written once over an interface of
    arithmetic operations.  The program runs them on binary64 floats; the
    algebraic identities they satisfy are stated on exact rationals. *)

Class Arith (A : Type) := {
  a_add : A -> A -> A;
  a_sub : A -> A -> A;
  a_mul : A -> A -> A;
  a_div : A -> A -> A;
  a_of_Z : Z -> A
}.

(** int64 to float64, rounded to nearest. *)
Definition float_of_Z (z : Z) : float :=
  SF2Prim (binary_normalize prec emax z 0 false).

#[global] Instance Arith_float : Arith float := {
  a_add := PrimFloat.add;
  a_sub := PrimFloat.sub;
  a_mul := PrimFloat.mul;
  a_div := PrimFloat.div;
  a_of_Z := float_of_Z
}.

#[global] Instance Arith_Q : Arith Q := {
  a_add := Qplus;
  a_sub := Qminus;
  a_mul := Qmult;
  a_div := Qdiv;
  a_of_Z := inject_Z
}.

Section Formulas.
Context {A : Type} `{Arith A}.

(** [sum] of a column, left to right. *)
Definition total (xs : list A) : A := fold_left a_add xs (a_of_Z 0).

(** [mean]: the sum over the count. *)
Definition mean (xs : list A) : A :=
  a_div (total xs) (a_of_Z (Z.of_nat (length xs))).

(** [(df[target_col] * 6 - df[col]) / 5] *)
Definition opponent_mean (group_mean self : A) : A :=
  a_div (a_sub (a_mul group_mean (a_of_Z 6)) self) (a_of_Z 5).

(** [df[col] - df[f"{col}_敵平均"]] *)
Definition opponent_delta (self opp : A) : A := a_sub self opp.

(** [(a + b) / 2] *)
Definition average2 (a b : A) : A := a_div (a_add a b) (a_of_Z 2).
End Formulas.

(** ** DataFrames *)

Inductive cell :=
| CStr (s : pystr)
| CInt (z : Z)
| CNum (x : float).

Definition column := list cell.

Record DataFrame := {
  nrows : nat;
  columns : list (string * column)
}.

Definition col_names (df : DataFrame) : list string := map fst (columns df).

Definition mem (c : string) (l : list string) : bool := existsb (String.eqb c) l.

(** [c in df.columns] *)
Definition has_col (c : string) (df : DataFrame) : bool := mem c (col_names df).

(** [df[c]]; a missing column is a [KeyError]. *)
Definition get_col (df : DataFrame) (c : string) : result column :=
  match lookup c (columns df) with
  | Some v => Ok v
  | None => Raise (KeyError c)
  end.

Fixpoint replace_col (c : string) (v : column) (cs : list (string * column))
  : list (string * column) :=
  match cs with
  | [] => [(c, v)]
  | (c', v') :: rest =>
      if String.eqb c c' then (c, v) :: rest else (c', v') :: replace_col c v rest
  end.

(** [df[c] = v]: an existing column keeps its place, a new one is appended. *)
Definition set_col (df : DataFrame) (c : string) (v : column) : DataFrame :=
  {| nrows := nrows df; columns := replace_col c v (columns df) |}.

(** [df[c] = v] for a scalar [v]. *)
Definition set_scalar (df : DataFrame) (c : string) (v : cell) : DataFrame :=
  set_col df c (repeat v (nrows df)).

(** [df[c] = v] for an array [v], whose length must be the row count. *)
Definition assign_array (df : DataFrame) (c : string) (v : column)
  : result DataFrame :=
  if Nat.eqb (length v) (nrows df) then Ok (set_col df c v) else Raise ValueError.

(** [df.drop(columns=cs)] for columns known to be present, and
    [df.drop(columns=cs, errors='ignore')]. *)
Definition drop_cols (df : DataFrame) (cs : list string) : DataFrame :=
  {| nrows := nrows df;
     columns := filter (fun kv => negb (mem (fst kv) cs)) (columns df) |}.

(** [df.empty] *)
Definition empty (df : DataFrame) : bool :=
  Nat.eqb (nrows df) 0 || match columns df with [] => true | _ => false end.

Fixpoint select {A} (mask : list bool) (xs : list A) : list A :=
  match mask, xs with
  | b :: mask', x :: xs' => if b then x :: select mask' xs' else select mask' xs'
  | _, _ => []
  end.

(** [df[mask]] for a boolean mask. *)
Definition filter_rows (df : DataFrame) (mask : list bool) : DataFrame :=
  {| nrows := length (select mask (repeat tt (nrows df)));
     columns := map (fun kv => (fst kv, select mask (snd kv))) (columns df) |}.

(** [df[0:n]] *)
Definition head_rows (df : DataFrame) (n : nat) : DataFrame :=
  {| nrows := Nat.min n (nrows df);
     columns := map (fun kv => (fst kv, firstn n (snd kv))) (columns df) |}.

Definition cells_or_nan (df : DataFrame) (c : string) : column :=
  match lookup c (columns df) with
  | Some v => v
  | None => repeat (CNum nan) (nrows df)
  end.

(** [pd.concat([a, b], axis=0)]: the columns of [a], then those of [b]
    that [a] lacks; a cell of a column that a frame lacks is NaN. *)
Definition concat (a b : DataFrame) : DataFrame :=
  let names :=
    col_names a ++ filter (fun c => negb (has_col c a)) (col_names b) in
  {| nrows := nrows a + nrows b;
     columns := map (fun c => (c, cells_or_nan a c ++ cells_or_nan b c)) names |}.

(** ** The pandas layer

    Two library functions are left to the environment: the parser behind
    [pd.to_numeric(..., errors='coerce')] on one string (NaN when the text
    is not a number; an integer result is given as the equal float), and
    the text [str(x)] of a float. *)

Record Pandas := {
  to_numeric_str : pystr -> float;
  repr_float : float -> pystr
}.

Definition pystr_of_Z (z : Z) : pystr := u (NilZero.string_of_int (Z.to_int z)).

Section PandasLayer.
Variable E : Pandas.

(** One element of [series.astype(str)]. *)
Definition astype_str (c : cell) : pystr :=
  match c with
  | CStr s => s
  | CInt z => pystr_of_Z z
  | CNum x => repr_float E x
  end.

(** One element of [pd.to_numeric(series, errors='coerce')]. *)
Definition to_numeric_cell (c : cell) : cell :=
  match c with
  | CStr s => CNum (to_numeric_str E s)
  | CInt _ | CNum _ => c
  end.

(** One element of [series.fillna(v)]. *)
Definition fillna (v : float) (c : cell) : cell :=
  match c with
  | CNum x => if is_nan x then CNum v else c
  | CStr _ | CInt _ => c
  end.

(** The float a cell contributes to arithmetic; text is a [TypeError]. *)
Definition as_float (c : cell) : result float :=
  match c with
  | CStr _ => Raise TypeError
  | CInt z => Ok (float_of_Z z)
  | CNum x => Ok x
  end.

Fixpoint mapM {A B} (f : A -> result B) (l : list A) : result (list B) :=
  match l with
  | [] => Ok []
  | x :: xs =>
      match f x with
      | Ok y => match mapM f xs with Ok ys => Ok (y :: ys) | Raise e => Raise e end
      | Raise e => Raise e
      end
  end.

Fixpoint foldM {A B} (f : B -> A -> result B) (l : list A) (b : B) : result B :=
  match l with
  | [] => Ok b
  | x :: xs => match f b x with Ok b' => foldM f xs b' | Raise e => Raise e end
  end.

Definition map2 {A B C} (f : A -> B -> C) (xs : list A) (ys : list B) : list C :=
  map (fun p => f (fst p) (snd p)) (combine xs ys).

(** [df[c]] read as numbers. *)
Definition get_num (df : DataFrame) (c : string) : result (list float) :=
  match get_col df c with
  | Ok v => mapM as_float v
  | Raise e => Raise e
  end.

Definition set_num (df : DataFrame) (c : string) (xs : list float) : DataFrame :=
  set_col df c (map CNum xs).

(** [if c in df.columns: df[c] = f(df[c])], element by element. *)
Definition update_col (f : cell -> cell) (df : DataFrame) (c : string) : DataFrame :=
  match lookup c (columns df) with
  | Some v => set_col df c (map f v)
  | None => df
  end.

Definition update_colM (f : cell -> result cell) (df : DataFrame) (c : string)
  : result DataFrame :=
  match lookup c (columns df) with
  | Some v =>
      match mapM f v with
      | Ok v' => Ok (set_col df c v')
      | Raise e => Raise e
      end
  | None => Ok df
  end.

(** [df[name] = f(df[a])] and [df[name] = f(df[a], df[b])]. *)
Definition derive1 (f : float -> float) (a name : string) (df : DataFrame)
  : result DataFrame :=
  match get_num df a with
  | Ok xs => Ok (set_num df name (map f xs))
  | Raise e => Raise e
  end.

Definition derive2 (f : float -> float -> float) (a b name : string)
  (df : DataFrame) : result DataFrame :=
  match get_num df a with
  | Ok xs =>
      match get_num df b with
      | Ok ys => Ok (set_num df name (map2 f xs ys))
      | Raise e => Raise e
      end
  | Raise e => Raise e
  end.

(** *** Aggregations, which skip NaN *)

Definition dropna (xs : list float) : list float :=
  filter (fun x => negb (is_nan x)) xs.

(** The mean of the values that are not NaN; NaN when there is none
    (0/0).  pandas sums with compensation; the rounding of the sum is
    not modelled beyond plain left-to-right addition. *)
Definition agg_mean (xs : list float) : float := mean (dropna xs).

Definition agg_max (xs : list float) : float :=
  match dropna xs with
  | [] => nan
  | y :: ys => fold_left (fun a b => if PrimFloat.ltb a b then b else a) ys y
  end.

Definition agg_min (xs : list float) : float :=
  match dropna xs with
  | [] => nan
  | y :: ys => fold_left (fun a b => if PrimFloat.ltb b a then b else a) ys y
  end.

(** The values of the rows whose key is [k]. *)
Definition group_values {K} (eqb : K -> K -> bool) (keys : list K)
  (vals : list float) (k : K) : list float :=
  map snd (filter (fun kv => eqb (fst kv) k) (combine keys vals)).

(** [df.groupby(key)[col].transform(agg)]: every row receives the
    aggregate of its group. *)
Definition transform {K} (eqb : K -> K -> bool) (agg : list float -> float)
  (keys : list K) (vals : list float) : list float :=
  map (fun k => agg (group_values eqb keys vals k)) keys.

(** [df.groupby(key)[col].rank(method='min')]: one plus the number of
    smaller values in the group; NaN stays NaN. *)
Definition rank_min {K} (eqb : K -> K -> bool) (keys : list K)
  (vals : list float) : list float :=
  map2 (fun k x =>
          if is_nan x then nan
          else float_of_Z
                 (1 + Z.of_nat
                        (length (filter (fun y => PrimFloat.ltb y x)
                                        (group_values eqb keys vals k)))))
       keys vals.
End PandasLayer.

(** ** [prepare_df]

    The input frame is the one the scraper builds; a derived column whose
    name the input already carries would be renamed by [merge], which is
    not modelled (the scraper's frame has no such column). *)

Section PrepareDf.
Variable E : Pandas.
Local Open Scope string_scope.
Local Open Scope result_scope.

Definition clean_numeric_cols : list string := ["スタート展示"; "チルト"]%list.

Definition rate_columns : list string :=
  ["勝率_全国"; "勝率_当地"; "2連率_全国"; "2連率_当地"; "3連率_全国"; "3連率_当地";
   "モーター2連率"; "モーター3連率"; "ボート2連率"; "ボート3連率"]%list.

Definition agg_features : list string :=
  ["勝率_全国"; "勝率_当地"; "モーターパワー"; "ボートパワー";
   "総合力スコア"; "クラスランク"; "平均ST"]%list.

(** [.astype(str).str.replace('\xa0', '').str.strip()], then
    [pd.to_numeric(..., errors='coerce')]. *)
Definition clean_text (c : cell) : cell :=
  CNum (to_numeric_str E (strip (remove_char ch_nbsp (astype_str E c)))).

(** [.astype(str).str[:2].astype(float)] *)
Definition clean_age (c : cell) : result cell :=
  match py_float (firstn 2 (astype_str E c)) with
  | Some x => Ok (CNum x)
  | None => Raise ValueError
  end.

(** [.astype(str).str.replace('/', '')], then [pd.to_numeric]. *)
Definition clean_weight (c : cell) : cell :=
  CNum (to_numeric_str E (remove_char ch_slash (astype_str E c))).

(** [.replace('-', np.nan)], then [pd.to_numeric]. *)
Definition clean_mean_st (c : cell) : cell :=
  to_numeric_cell E
    match c with
    | CStr s => if pystr_eqb s (u "-") then CNum nan else c
    | CInt _ | CNum _ => c
    end.

(** [.str.extract(r'(\d+)')]: the first run of digits, if any. *)
Definition extract_digits (s : pystr) : option pystr :=
  match fst (span is_digit (drop_while (fun c => negb (is_digit c)) s)) with
  | [] => None
  | d => Some d
  end.

(** [.astype(str).str.extract(r'(\d+)').fillna(0).astype(int)]; a value
    that does not fit int64 is an [OverflowError] (a [ValueError] where
    the interpreter limits the length of integer strings). *)
Definition clean_f_count (c : cell) : result cell :=
  match extract_digits (astype_str E c) with
  | None => Ok (CInt 0)
  | Some d =>
      let v := Z.of_N (digits_value d) in
      if (v <? 2 ^ 63)%Z then Ok (CInt v) else Raise OverflowError
  end.

(** [class_map = {"A1": 4, "A2": 3, "B1": 2, "B2": 1}] *)
Definition class_map (c : cell) : float :=
  match c with
  | CStr s =>
      if pystr_eqb s (u "A1") then 4%float
      else if pystr_eqb s (u "A2") then 3%float
      else if pystr_eqb s (u "B1") then 2%float
      else if pystr_eqb s (u "B2") then 1%float
      else nan
  | CInt _ | CNum _ => nan
  end.

(** [.astype(str).str.replace('%', '').str.replace(' ', '').str.strip()],
    then [pd.to_numeric(..., errors='coerce').fillna(0)]. *)
Definition clean_rate (c : cell) : cell :=
  fillna zero
    (CNum (to_numeric_str E
             (strip (remove_char ch_space (remove_char ch_percent (astype_str E c)))))).

(** [pd.to_numeric(..., errors='coerce').fillna(0)] *)
Definition numeric_or_zero (c : cell) : cell := fillna zero (to_numeric_cell E c).

Definition fill (v x : float) : float := if is_nan x then v else x.

(** [course_score = {1: 1.0, 2: 0.8, 3: 0.6, 4: 0.4, 5: 0.2, 6: 0.0}] *)
Definition course_score (x : float) : float :=
  if PrimFloat.eqb x 1 then 1.0%float
  else if PrimFloat.eqb x 2 then 0.8%float
  else if PrimFloat.eqb x 3 then 0.6%float
  else if PrimFloat.eqb x 4 then 0.4%float
  else if PrimFloat.eqb x 5 then 0.2%float
  else if PrimFloat.eqb x 6 then 0.0%float
  else nan.

(** [{-0.5: -1, 0.0: 0, 0.5: 1}] *)
Definition tilt_cat (x : float) : float :=
  if PrimFloat.eqb x (-0.5)%float then (-1)%float
  else if PrimFloat.eqb x 0.0%float then 0%float
  else if PrimFloat.eqb x 0.5%float then 1%float
  else nan.

Definition stability (x : float) : float := (1 / (x + 0.01))%float.

(** [df.groupby("レースID")[agg_features].agg(['mean', 'max', 'min'])]
    merged back on [レースID], one feature at a time. *)
Definition add_race_stats (race_id : list pystr) (df : DataFrame) (f : string)
  : result DataFrame :=
  vals <- get_num df f ;;
  let df := set_num df (f ++ "_mean_全体") (transform pystr_eqb agg_mean race_id vals) in
  let df := set_num df (f ++ "_max_全体") (transform pystr_eqb agg_max race_id vals) in
  Ok (set_num df (f ++ "_min_全体") (transform pystr_eqb agg_min race_id vals)).

Definition add_opponent (df : DataFrame) (col : string) : result DataFrame :=
  let target_col := col ++ "_mean_全体" in
  if has_col target_col df then
    df <- derive2 opponent_mean target_col col (col ++ "_敵平均") df ;;
    derive2 opponent_delta col (col ++ "_敵平均") (col ++ "_差") df
  else Ok df.

Definition flag (b : bool) : cell := CInt (if b then 1 else 0).

Definition is_str (c : cell) : bool :=
  match c with CStr _ => true | CInt _ | CNum _ => false end.

(** The columns of dtype [object] are those that still hold text. *)
Definition is_object_col (v : column) : bool := existsb is_str v.

Definition map_cells (f : cell -> cell) (df : DataFrame) : DataFrame :=
  {| nrows := nrows df;
     columns := map (fun kv => (fst kv, map f (snd kv))) (columns df) |}.

Definition map_object_cols (f : cell -> cell) (df : DataFrame) : DataFrame :=
  {| nrows := nrows df;
     columns :=
       map (fun kv => (fst kv, if is_object_col (snd kv) then map f (snd kv) else snd kv))
           (columns df) |}.

Definition prepare_df (df0 : DataFrame) : result DataFrame :=
  (* ====== 基本整形 ====== *)
  let df := drop_cols df0 ["名前"; "L数"]%list in
  (* ===== 数値列のクリーニング ===== *)
  let df := fold_left (update_col clean_text) clean_numeric_cols df in
  df <- update_colM clean_age df "年齢" ;;
  let df := update_col clean_weight df "体重" in
  let df := update_col clean_mean_st df "平均ST" in
  df <- update_colM clean_f_count df "F数" ;;
  classes <- get_col df "クラス" ;;
  let df := set_col df "クラスランク"
              (map (fun c => fillna zero (CNum (class_map c))) classes) in
  let df := fold_left (update_col clean_rate) rate_columns df in
  let df := update_col numeric_or_zero df "コース" in
  let df := update_col numeric_or_zero df "モーターナンバー" in
  let df := update_col numeric_or_zero df "ボートナンバー" in
  (* ====== 派生特徴量 ====== *)
  df <- derive1 stability "平均ST" "ST安定スコア" df ;;
  df <- derive2 PrimFloat.sub "勝率_当地" "勝率_全国" "勝率_diff" df ;;
  df <- derive2 PrimFloat.sub "2連率_当地" "2連率_全国" "2連率_diff" df ;;
  df <- derive2 PrimFloat.sub "3連率_当地" "3連率_全国" "3連率_diff" df ;;
  df <- derive2 average2 "勝率_全国" "勝率_当地" "勝率総合" df ;;
  df <- derive2 average2 "2連率_全国" "3連率_全国" "連対安定度" df ;;
  df <- derive2 average2 "モーター2連率" "モーター3連率" "モーターパワー" df ;;
  df <- derive2 average2 "ボート2連率" "ボート3連率" "ボートパワー" df ;;
  df <- derive2 PrimFloat.sub "モーターパワー" "ボートパワー" "機力差" df ;;
  df <- derive2 average2 "モーターパワー" "ボートパワー" "総合機力" df ;;
  df <- derive1 (fun x => fill 0.5%float (course_score x)) "コース" "イン有利スコア" df ;;
  df <- derive1 (fun x => fill zero (1 / (if PrimFloat.eqb x 0 then nan else x))%float)
          "コース" "コース逆数" df ;;
  df <- derive2 average2 "勝率総合" "総合機力" "総合力スコア" df ;;
  df <- derive2 PrimFloat.mul "イン有利スコア" "勝率_当地" "コース適応スコア" df ;;
  df <- derive2 PrimFloat.mul "クラスランク" "総合機力" "クラス機力スコア" df ;;
  df <- derive2 PrimFloat.mul "ST安定スコア" "勝率_全国" "ST勝率連動" df ;;
  df <- derive2 (fun w x => (w / (x + 0.01))%float) "体重" "平均ST" "体重ST比" df ;;
  (* ====== 敵情報特徴量 ====== *)
  days <- get_col df "日" ;;
  rounds <- get_col df "ラウンド" ;;
  let race_id :=
    map2 (fun d r => (astype_str E d ++ u "_" ++ astype_str E r)%list) days rounds in
  let df := set_col df "レースID" (map CStr race_id) in
  df <- foldM (add_race_stats race_id) agg_features df ;;
  df <- foldM add_opponent ["勝率_全国"; "モーターパワー"; "総合力スコア"]%list df ;;
  df <- (if has_col "クラスランク_mean_全体" df then
           df <- derive2 opponent_mean "クラスランク_mean_全体" "クラスランク"
                   "敵平均クラスランク" df ;;
           xs <- get_num df "クラスランク" ;;
           ys <- get_num df "敵平均クラスランク" ;;
           Ok (set_col df "クラス優位" (map2 (fun x y => flag (PrimFloat.ltb y x)) xs ys))
         else Ok df) ;;
  (* ===== レース内相対 ===== *)
  df <- (if has_col "スタート展示" df then
           let df := update_col numeric_or_zero df "スタート展示" in
           ex <- get_num df "スタート展示" ;;
           let df := set_num df "スタート展示_平均との差"
                       (map2 PrimFloat.sub ex (transform pystr_eqb agg_mean race_id ex)) in
           let df := set_num df "スタート展示_順位" (rank_min pystr_eqb race_id ex) in
           let df := set_num df "スタート展示_最速差"
                       (map2 PrimFloat.sub ex (transform pystr_eqb agg_min race_id ex)) in
           course <- get_num df "コース" ;;
           let df := set_num df "スタート展示_コース平均との差"
                       (map2 PrimFloat.sub ex (transform PrimFloat.eqb agg_mean course ex)) in
           Ok (set_num df "コース_スタート展示" (map2 PrimFloat.mul course ex))
         else Ok df) ;;
  (* ===== チルト ===== *)
  df <- (if has_col "チルト" df then
           let df := update_col numeric_or_zero df "チルト" in
           t <- get_num df "チルト" ;;
           let df := set_col df "チルト_プラス" (map (fun x => flag (PrimFloat.ltb 0 x)) t) in
           Ok (set_num df "チルト_cat" (map (fun x => fill zero (tilt_cat x)) t))
         else Ok df) ;;
  (* ===== 交互作用 ===== *)
  df <- (if has_col "スタート展示" df && has_col "チルト" df
         then derive2 PrimFloat.mul "スタート展示" "チルト" "スタート展示_チルト" df
         else Ok df) ;;
  df <- (if has_col "チルト" df && has_col "コース" df
         then derive2 PrimFloat.mul "チルト" "コース" "チルト_コース" df
         else Ok df) ;;
  (* ====== 最終整形 ====== *)
  let df := drop_cols df ["レースID"]%list in
  let df := map_cells (fillna zero) df in
  Ok (map_object_cols (fun c => fillna zero (to_numeric_cell E c)) df).
End PrepareDf.

(** ** The scraper's records

    One row per boat, as the scraper collects it: text fields cut out of
    the page, the lane, the day of the month and the round. *)

Record RawCompetitorRecord := {
  name : pystr;
  age : pystr;
  weight : pystr;
  class_code : pystr;
  F_count : pystr;
  L_count : pystr;
  mean_ST : pystr;
  win_rate : pystr;
  win2_rate : pystr;
  win3_rate : pystr;
  local_win_rate : pystr;
  local_win2_rate : pystr;
  local_win3_rate : pystr;
  motor_num : pystr;
  motor_win2 : pystr;
  motor_win3 : pystr;
  boat_num : pystr;
  boat_win2 : pystr;
  boat_win3 : pystr;
  course : Z;
  day : pystr;
  round : Z;
  start_exhibition : pystr;
  tilt : pystr
}.

(** [new_df = pd.DataFrame({...})] followed by the four added columns. *)
Definition frame_of_records (rs : list RawCompetitorRecord) : DataFrame :=
  let str (f : RawCompetitorRecord -> pystr) := map (fun r => CStr (f r)) rs in
  let int (f : RawCompetitorRecord -> Z) := map (fun r => CInt (f r)) rs in
  {| nrows := length rs;
     columns :=
       [ ("名前"%string, str name); ("年齢"%string, str age); ("体重"%string, str weight);
         ("クラス"%string, str class_code); ("F数"%string, str F_count);
         ("L数"%string, str L_count); ("平均ST"%string, str mean_ST);
         ("勝率_全国"%string, str win_rate); ("2連率_全国"%string, str win2_rate);
         ("3連率_全国"%string, str win3_rate); ("勝率_当地"%string, str local_win_rate);
         ("2連率_当地"%string, str local_win2_rate);
         ("3連率_当地"%string, str local_win3_rate);
         ("モーターナンバー"%string, str motor_num);
         ("モーター2連率"%string, str motor_win2); ("モーター3連率"%string, str motor_win3);
         ("ボートナンバー"%string, str boat_num);
         ("ボート2連率"%string, str boat_win2); ("ボート3連率"%string, str boat_win3);
         ("コース"%string, int course); ("日"%string, str day); ("ラウンド"%string, int round);
         ("スタート展示"%string, str start_exhibition); ("チルト"%string, str tilt) ] |}.

(** Feature derivation of a batch of records. *)
Definition derive (E : Pandas) (rs : list RawCompetitorRecord) : result DataFrame :=
  prepare_df E (frame_of_records rs).

(** ** The inference script *)

(** A loaded model: its feature names and its scoring function, both
    owned by LightGBM. *)
Record Booster := {
  feature_name : list string;
  predict : DataFrame -> result (list float)
}.

(** The file system and the model loader, by path relative to
    [BASE_DIR]. *)
Record Lgb := {
  path_exists : pystr -> bool;
  Booster_load : pystr -> result Booster
}.

(** What the script does that is visible from outside: the signals it
    shows and the tables it hands to a model. *)
Inductive event :=
| Signal (s : signal)
| PredictCall (g : lane_group) (input : DataFrame).

Record model_info := {
  info_course : lane_group;
  info_filename : pystr;
  info_threshold : float
}.

Record script_state := {
  test_df : DataFrame;
  test_df6 : DataFrame;
  model_info_list : list model_info;
  trace : list event
}.

(** Statements of the script: they update the state and may raise, and
    what was done before an exception stays done. *)
Definition M (A : Type) : Type := script_state -> result A * script_state.

Definition ret {A} (a : A) : M A := fun s => (Ok a, s).

Definition bind {A B} (m : M A) (k : A -> M B) : M B :=
  fun s =>
    match m s with
    | (Ok a, s') => k a s'
    | (Raise e, s') => (Raise e, s')
    end.

Declare Scope script_scope.
Delimit Scope script_scope with script.
Notation "x <- m ;; k" := (bind m (fun x => k))
  (at level 61, m at next level, right associativity) : script_scope.
Notation "m ;; k" := (bind m (fun _ => k))
  (at level 61, right associativity) : script_scope.

Definition lift {A} (r : result A) : M A := fun s => (r, s).

Definition emit (e : event) : M unit :=
  fun s =>
    (Ok tt, {| test_df := test_df s; test_df6 := test_df6 s;
               model_info_list := model_info_list s;
               trace := trace s ++ [e] |}).

Definition frame (g : lane_group) (s : script_state) : DataFrame :=
  match g with
  | course_1 => test_df s
  | course_6 => test_df6 s
  end.

Definition get_frame (g : lane_group) : M DataFrame := fun s => (Ok (frame g s), s).

Definition put_frame (g : lane_group) (df : DataFrame) : M unit :=
  fun s =>
    (Ok tt,
     match g with
     | course_1 =>
         {| test_df := df; test_df6 := test_df6 s;
            model_info_list := model_info_list s; trace := trace s |}
     | course_6 =>
         {| test_df := test_df s; test_df6 := df;
            model_info_list := model_info_list s; trace := trace s |}
     end).

Definition append_info (i : model_info) : M unit :=
  fun s =>
    (Ok tt, {| test_df := test_df s; test_df6 := test_df6 s;
               model_info_list := model_info_list s ++ [i];
               trace := trace s |}).

Definition score_column (g : lane_group) : string :=
  match g with
  | course_1 => "1_5号艇着外予測数値"
  | course_6 => "6号艇着外予測数値"
  end.

Definition flag_column (g : lane_group) : string :=
  match g with
  | course_1 => "1_5号艇着外予測"
  | course_6 => "6号艇着外予測"
  end.

(** [(pred > threshold).astype(int)] *)
Definition binarize (threshold : float) (pred : list float) : column :=
  map (fun p => flag (PrimFloat.ltb threshold p)) pred.

(** [extract_threshold_from_filename] as a statement of the script. *)
Definition extract_threshold (file_path : pystr) : M float :=
  fun s =>
    let (r, sigs) := extract_threshold_from_filename file_path in
    (r, {| test_df := test_df s; test_df6 := test_df6 s;
           model_info_list := model_info_list s;
           trace := trace s ++ map Signal sigs |}).

Section Script.
Variable P : Pandas.
Variable L : Lgb.
Local Open Scope script_scope.

(** One of the two parallel blocks of the [try] body: the block of
    [course_1] works on [test_df], that of [course_6] on [test_df6]. *)
Definition score_block (entry : pystr * pystr) (g : lane_group) : M unit :=
  df <- get_frame g ;;
  if empty df then ret tt
  else
    let path := model_path entry g in
    threshold <- extract_threshold path ;;
    let model_filename := basename path in
    bst <- lift (Booster_load L path) ;;
    emit (PredictCall g df) ;;
    pred <- lift (predict bst df) ;;
    df <- lift (assign_array df (score_column g) (map CNum pred)) ;;
    put_frame g df ;;
    let pred_binary := binarize threshold pred in
    df <- lift (assign_array df (flag_column g) pred_binary) ;;
    put_frame g df ;;
    append_info {| info_course := g; info_filename := model_filename;
                   info_threshold := threshold |}.

Definition try_body (venue_name : string) (entry : pystr * pystr) : M unit :=
  score_block entry course_1 ;;
  score_block entry course_6 ;;
  fun s =>
    match model_info_list s with
    | [] => ret tt s
    | _ :: _ => emit (Signal (success_model_loaded venue_name)) s
    end.

(** The [st.error] of the two handlers: [except FileNotFoundError] and
    [except Exception]. *)
Definition error_signal (e : exn) : signal :=
  match e with
  | FileNotFoundError => error_model_file_not_found
  | _ => error_model_load e
  end.

(** [try: ... except FileNotFoundError: ... except Exception: ...] *)
Definition with_except (body : M unit) (s : script_state) : script_state :=
  match body s with
  | (Ok _, s') => s'
  | (Raise e, s') => snd (emit (Signal (error_signal e)) s')
  end.

(** [venue_name and venue_name in MODEL_PATHS] *)
Definition venue_entry (venue_name : option string) : option (pystr * pystr) :=
  match venue_name with
  | Some v => if String.eqb v "" then None else lookup v MODEL_PATHS
  | None => None
  end.

(** The feature names of the venue's [course_1] model, or of the first
    registered venue's when the venue has none; the table's own columns
    when that file is absent or does not load. *)
Definition required_columns (venue_name : option string) (test_df : DataFrame)
  : list string :=
  let _model_path :=
    match venue_entry venue_name with
    | Some entry => fst entry
    | None =>
        match MODEL_PATHS with
        | (_, entry) :: _ => fst entry
        | [] => []
        end
    end in
  if path_exists L _model_path then
    match Booster_load L _model_path with
    | Ok _bst => feature_name _bst
    | Raise _ => col_names test_df
    end
  else col_names test_df.

Definition missing_columns (required : list string) (test_df : DataFrame)
  : list string :=
  filter (fun col => negb (has_col col test_df)) required.

Definition extra_columns (required : list string) (test_df : DataFrame)
  : list string :=
  filter (fun col => negb (mem col required)) (col_names test_df).

(** Lines 753-768: the missing columns are added as NaN, then the extra
    columns are dropped. *)
Definition align (required : list string) (test_df : DataFrame) : DataFrame :=
  let missing := missing_columns required test_df in
  let extra := extra_columns required test_df in
  let test_df := fold_left (fun d col => set_scalar d col (CNum nan)) missing test_df in
  match extra with
  | [] => test_df
  | _ :: _ => drop_cols test_df extra
  end.

Definition cols_to_convert : list string :=
  ["勝率_全国"; "2連率_全国"; "3連率_全国";
   "勝率_当地"; "2連率_当地"; "3連率_当地";
   "モーターナンバー"; "モーター2連率"; "モーター3連率";
   "ボートナンバー"; "ボート2連率"; "ボート3連率";
   "日"]%string.

(** [pd.to_numeric(..., errors='coerce').astype(float)] *)
Definition to_float_cell (c : cell) : cell :=
  match to_numeric_cell P c with
  | CInt z => CNum (float_of_Z z)
  | c' => c'
  end.

(** One element of [series == k] for an integer [k]. *)
Definition eq_int (k : Z) (c : cell) : bool :=
  match c with
  | CInt z => Z.eqb z k
  | CNum x => PrimFloat.eqb x (float_of_Z k)
  | CStr _ => false
  end.

Definition set_test_df (df : DataFrame) (s : script_state) : script_state :=
  {| test_df := df; test_df6 := test_df6 s;
     model_info_list := model_info_list s; trace := trace s |}.

(** Lines 738-780: the table aligned to the model's columns, and the
    warning shown when columns were missing. *)
Definition aligned_table (venue_name : option string) (features : DataFrame)
  : DataFrame * list event :=
  let required := required_columns venue_name features in
  let missing := missing_columns required features in
  let shown :=
    match missing with
    | [] => []
    | _ :: _ => [Signal (warning_missing_columns missing)]
    end in
  let aligned := align required features in
  (fold_left (update_col to_float_cell) cols_to_convert aligned, shown).

(** Lines 859-870: [test_df = pd.concat([test_df[0:5], test_df6], axis=0)],
    done when the table has the day and round columns. *)
Definition reassemble (s : script_state) : script_state :=
  if has_col "日" (test_df s) && has_col "ラウンド" (test_df s)
  then set_test_df (concat (head_rows (test_df s) 5) (test_df6 s)) s
  else s.

(** Lines 783-870: lane routing, scoring and reassembly. *)
Definition route_and_score (venue_name : option string) (table : DataFrame)
  : result script_state :=
  match get_col table "コース" with
  | Raise e => Raise e
  | Ok lanes =>
      let table6 := filter_rows table (map (eq_int 6) lanes) in
      let s := {| test_df := table; test_df6 := table6;
                  model_info_list := []; trace := [] |} in
      let s :=
        match venue_name, venue_entry venue_name with
        | Some v, Some entry => with_except (try_body v entry) s
        | Some v, None =>
            if String.eqb v ""
            then snd (emit (Signal warning_venue_not_selected) s)
            else snd (emit (Signal (warning_venue_not_registered v)) s)
        | None, _ => snd (emit (Signal warning_venue_not_selected) s)
        end in
      Ok (reassemble s)
  end.

(** The script from the feature table to the table that is displayed
    (lines 738-870). *)
Definition inference (venue_name : option string) (features : DataFrame)
  : result script_state :=
  let (table, shown) := aligned_table venue_name features in
  match route_and_score venue_name table with
  | Raise e => Raise e
  | Ok s =>
      Ok {| test_df := test_df s; test_df6 := test_df6 s;
            model_info_list := model_info_list s;
            trace := shown ++ trace s |}
  end.

(** The whole page: nothing is done until a table has been fetched. *)
Definition app (venue_name : option string) (df : DataFrame)
  : result (option script_state) :=
  if empty df then Ok None
  else
    match prepare_df P df with
    | Raise e => Raise e
    | Ok features =>
        match inference venue_name features with
        | Raise e => Raise e
        | Ok s => Ok (Some s)
        end
    end.
End Script.

(** [venues]: the venues of the page, from which the venue name of the
    session is taken. *)
Definition venues : list (Z * string) :=
  [ (1, "桐生"); (2, "戸田"); (3, "江戸川"); (4, "平和島"); (5, "多摩川");
    (6, "浜名湖"); (7, "蒲郡"); (8, "常滑"); (9, "津"); (10, "三国");
    (11, "びわこ"); (12, "住之江"); (13, "尼崎"); (14, "鳴門"); (15, "丸亀");
    (16, "児嶋"); (17, "宮島"); (18, "徳山"); (19, "下関"); (20, "若松");
    (21, "芦屋"); (22, "福岡"); (23, "唐津"); (24, "大村") ]%Z%string.

(** ** Environments used to run the embedding on examples *)

(** A parser for [to_numeric_str] that accepts what [float] accepts. *)
Definition pandas_ref : Pandas := {|
  to_numeric_str := fun s => match py_float s with Some x => x | None => nan end;
  repr_float := fun _ => u "nan"
|}.

(** A model that gives every row the same score. *)
Definition constant_booster (features : list string) (score : float) : Booster := {|
  feature_name := features;
  predict := fun df => Ok (repeat score (nrows df))
|}.

(** Every model file is present. *)
Definition lgb_all (features : list string) (score : float) : Lgb := {|
  path_exists := fun _ => true;
  Booster_load := fun _ => Ok (constant_booster features score)
|}.

(** Every model file is present but [absent]. *)
Definition lgb_without (absent : pystr) (features : list string) (score : float)
  : Lgb := {|
  path_exists := fun p => negb (pystr_eqb p absent);
  Booster_load := fun p =>
    if pystr_eqb p absent then Raise FileNotFoundError
    else Ok (constant_booster features score)
|}.

Definition demo_record (lane : Z) (exhibition win : string) (class : string)
  : RawCompetitorRecord := {|
  name := u "選手"; age := u "35歳"; weight := u "52.0"; class_code := u class;
  F_count := u "F0"; L_count := u "L0"; mean_ST := u "0.15";
  win_rate := u win; win2_rate := u "40.00"; win3_rate := u "55.50";
  local_win_rate := u "5.50"; local_win2_rate := u "30.00"; local_win3_rate := u "50.00";
  motor_num := u "12"; motor_win2 := u "33.30"; motor_win3 := u "50.00";
  boat_num := u "45"; boat_win2 := u "30.00"; boat_win3 := u "44.40";
  course := lane; day := u "05"; round := 3;
  start_exhibition := u exhibition; tilt := u "-0.5"
|}.

Definition demo_records : list RawCompetitorRecord :=
  [ demo_record 1 "6.8" "6.50" "A1"; demo_record 2 "6.5" "5.00" "A2";
    demo_record 3 "6.5" "4.20" "B1"; demo_record 4 "7.0" "3.30" "B2";
    demo_record 5 "6.9" "7.10" "B1"; demo_record 6 "6.6" "2.00" "A1" ].

(** A small table that has reached lane routing. *)
Definition demo_table : DataFrame := {|
  nrows := 6;
  columns :=
    [ ("コース"%string, map CInt [1; 2; 3; 4; 5; 6]%Z);
      ("日"%string, repeat (CNum 5%float) 6);
      ("ラウンド"%string, repeat (CInt 3) 6);
      ("勝率_全国"%string,
        map CNum [6.5; 5.0; 4.2; 3.3; 7.1; 2.0]%float) ]
|}.

(** ** Notions used to state the properties *)

(** [filename] ends with [_<d1>.<d2>.txt], possibly followed by one
    newline, where [d1] and [d2] are non-empty runs of decimal digits. *)
Definition threshold_shape (filename d1 d2 : pystr) : Prop :=
  exists pre nl,
    filename = pre ++ ch_underscore :: d1 ++ ch_dot :: d2 ++ u ".txt" ++ nl
    /\ d1 <> [] /\ d2 <> []
    /\ forallb is_digit d1 = true /\ forallb is_digit d2 = true
    /\ at_end nl = true.

(** What [float] makes of a digit: the ASCII digit of the same value. *)
Definition asciify (c : N) : N :=
  match unicode_decimal c with
  | Some d => 48 + d
  | None => c
  end.

(** A character of the captured group: a digit or the dot. *)
Definition group_char (c : N) : bool := is_digit c || (c =? ch_dot).

(** One step of [digits_value]. *)
Definition digit_step (acc c : N) : N :=
  acc * 10 + match unicode_decimal c with Some d => d | None => 0 end.

(** The mask [test_df['コース'] == 6] of a table whose lanes are 1 to 6. *)
Definition lane_mask : list bool := [false; false; false; false; false; true].

(** A table with the two prediction columns of a lane group. *)
Definition scored (df : DataFrame) (g : lane_group) (threshold : float)
  (pred : list float) : DataFrame :=
  set_col (set_col df (score_column g) (map CNum pred))
    (flag_column g) (binarize threshold pred).

(** The threshold a path resolves to. *)
Definition threshold_of (path : pystr) : float :=
  match fst (extract_threshold_from_filename path) with
  | Ok t => t
  | Raise _ => default_threshold
  end.

(** The state after a block of the [try] body has run to its end. *)
Definition block_done (entry : pystr * pystr) (g : lane_group) (pred : list float)
  (s : script_state) : script_state :=
  let path := model_path entry g in
  let df := scored (frame g s) g (threshold_of path) pred in
  {| test_df := match g with course_1 => df | course_6 => test_df s end;
     test_df6 := match g with course_1 => test_df6 s | course_6 => df end;
     model_info_list :=
       model_info_list s
       ++ [{| info_course := g; info_filename := basename path;
              info_threshold := threshold_of path |}];
     trace := trace s ++ [PredictCall g (frame g s)] |}.

(** The names of the four prediction columns. *)
Definition prediction_columns : list string :=
  [score_column course_1; flag_column course_1;
   score_column course_6; flag_column course_6].

(** The tables a model was asked to score, in order. *)
Fixpoint predict_calls (g : lane_group) (t : list event) : list DataFrame :=
  match t with
  | [] => []
  | PredictCall g' df :: rest =>
      match g, g' with
      | course_1, course_1 | course_6, course_6 => df :: predict_calls g rest
      | _, _ => predict_calls g rest
      end
  | Signal _ :: rest => predict_calls g rest
  end.

(** The state in which the [try] statement is entered, for a table whose
    lanes are 1 to 6. *)
Definition routed (table : DataFrame) : script_state :=
  {| test_df := table; test_df6 := filter_rows table lane_mask;
     model_info_list := []; trace := [] |}.

Definition info_of (entry : pystr * pystr) (g : lane_group) : model_info :=
  {| info_course := g; info_filename := basename (model_path entry g);
     info_threshold := threshold_of (model_path entry g) |}.

(** Every column has one cell per row. *)
Definition well_formed (df : DataFrame) : bool :=
  forallb (fun kv => Nat.eqb (length (snd kv)) (nrows df)) (columns df).

(** The entry of 桐生 in [MODEL_PATHS]. *)
Definition kiryu_entry : pystr * pystr :=
  (u "モデル/一月用モデル/桐生1_5_78910_56位モデル_0125_0.68.txt",
   u "モデル/一月用モデル/桐生6_78910_56位モデル_0125_0.64.txt").


(** A cell that holds a number: not text and not NaN. *)
Definition is_number (c : cell) : bool :=
  match c with
  | CStr _ => false
  | CInt _ => true
  | CNum x => negb (is_nan x)
  end.

(** The demonstration batch with the age text of the first boat empty,
    as a page cut short would leave it. *)
Definition demo_records_no_age : list RawCompetitorRecord :=
  match demo_records with
  | r :: rest =>
      {| name := name r; age := []; weight := weight r; class_code := class_code r;
         F_count := F_count r; L_count := L_count r; mean_ST := mean_ST r;
         win_rate := win_rate r; win2_rate := win2_rate r; win3_rate := win3_rate r;
         local_win_rate := local_win_rate r; local_win2_rate := local_win2_rate r;
         local_win3_rate := local_win3_rate r; motor_num := motor_num r;
         motor_win2 := motor_win2 r; motor_win3 := motor_win3 r;
         boat_num := boat_num r; boat_win2 := boat_win2 r; boat_win3 := boat_win3 r;
         course := course r; day := day r; round := round r;
         start_exhibition := start_exhibition r; tilt := tilt r |} :: rest
  | [] => []
  end.

(** A column that is present and holds no text. *)
Definition numeric (df : DataFrame) (c : string) : Prop :=
  exists v, lookup c (columns df) = Some v /\ existsb is_str v = false.

(** The digits of a foul-start text fit int64. *)
Definition F_count_fits (s : pystr) : bool :=
  match extract_digits s with
  | None => true
  | Some d => (Z.of_N (digits_value d) <? 2 ^ 63)%Z
  end.

(** * Properties *)

(** ** Checks of the string layer on the source's own literals *)

Example u_decodes_utf8 : u "江戸川6_" = [27743; 25144; 24029; 54; 95].
Proof. reflexivity. Qed.

Example float_of_text : py_float (u " +1_2.5e1 ") = Some 125%float.
Proof. vm_compute. reflexivity. Qed.

Example float_rejects_empty : py_float [] = None.
Proof. reflexivity. Qed.

(** ** Lists and characters *)

Lemma span_spec p s a b :
  span p s = (a, b) ->
  s = a ++ b /\ forallb p a = true /\
  match b with [] => True | c :: _ => p c = false end.
Proof.
  revert a b. induction s as [|c s IH]; simpl; intros a b H.
  - inversion H; subst. auto.
  - destruct (p c) eqn:Hc.
    + destruct (span p s) as [a' b'] eqn:Hs. inversion H; subst.
      destruct (IH _ _ eq_refl) as (-> & Ha & Hb).
      simpl. rewrite Hc, Ha. auto.
    + inversion H; subst. simpl. auto.
Qed.

Lemma span_app p a b :
  forallb p a = true ->
  match b with [] => True | c :: _ => p c = false end ->
  span p (a ++ b) = (a, b).
Proof.
  intros Ha Hb. induction a as [|c a IH]; simpl in *.
  - destruct b as [|c b]; simpl; auto. now rewrite Hb.
  - apply andb_true_iff in Ha as [Hc Ha]. rewrite Hc, (IH Ha). reflexivity.
Qed.

Lemma strip_prefix_spec p s t : strip_prefix p s = Some t <-> s = p ++ t.
Proof.
  revert s. induction p as [|a p IH]; intros s; simpl.
  - split; intros H; [now inversion H | now subst].
  - destruct s as [|b s]; [split; discriminate|].
    destruct (N.eqb_spec a b) as [->|Hab].
    + rewrite IH. split; intros H; [now subst | now inversion H].
    + split; [discriminate | intros H; inversion H; congruence].
Qed.

Lemma drop_while_head p c s : p c = false -> drop_while p (c :: s) = c :: s.
Proof. intros H. simpl. now rewrite H. Qed.

(** ** The threshold pattern *)

Lemma match_here_sound s g :
  match_here s = Some g ->
  exists d1 d2 nl,
    s = ch_underscore :: d1 ++ ch_dot :: d2 ++ u ".txt" ++ nl
    /\ d1 <> [] /\ d2 <> []
    /\ forallb is_digit d1 = true /\ forallb is_digit d2 = true
    /\ at_end nl = true /\ g = d1 ++ ch_dot :: d2.
Proof.
  unfold match_here. destruct s as [|c r0]; [discriminate|].
  destruct (N.eqb_spec c ch_underscore) as [->|]; [|discriminate].
  destruct (span is_digit r0) as [d1 r1] eqn:H1.
  destruct d1 as [|x d1]; [discriminate|].
  destruct r1 as [|c1 r2]; [discriminate|].
  destruct (N.eqb_spec c1 ch_dot) as [->|]; [|discriminate].
  destruct (span is_digit r2) as [d2 r3] eqn:H2.
  destruct d2 as [|y d2]; [discriminate|].
  destruct (strip_prefix (u ".txt") r3) as [tail|] eqn:H3; [|discriminate].
  destruct (at_end tail) eqn:H4; [|discriminate].
  intros H; inversion H; subst g.
  apply span_spec in H1 as (-> & Hd1 & _).
  apply span_spec in H2 as (-> & Hd2 & _).
  apply strip_prefix_spec in H3 as ->.
  exists (x :: d1), (y :: d2), tail.
  repeat split; auto; discriminate.
Qed.

Lemma match_here_complete d1 d2 nl :
  d1 <> [] -> d2 <> [] ->
  forallb is_digit d1 = true -> forallb is_digit d2 = true ->
  at_end nl = true ->
  match_here (ch_underscore :: d1 ++ ch_dot :: d2 ++ u ".txt" ++ nl)
  = Some (d1 ++ ch_dot :: d2).
Proof.
  intros N1 N2 H1 H2 Hnl. unfold match_here.
  rewrite N.eqb_refl.
  rewrite (span_app is_digit d1 (ch_dot :: d2 ++ u ".txt" ++ nl) H1 eq_refl).
  destruct d1 as [|x d1]; [contradiction|].
  rewrite N.eqb_refl.
  rewrite (span_app is_digit d2 (u ".txt" ++ nl) H2 eq_refl).
  destruct d2 as [|y d2]; [contradiction|].
  assert (H3 : strip_prefix (u ".txt") (u ".txt" ++ nl) = Some nl)
    by now apply strip_prefix_spec.
  rewrite H3, Hnl. reflexivity.
Qed.

Lemma digit_not_underscore c : is_digit c = true -> c <> ch_underscore.
Proof. intros H ->. vm_compute in H. discriminate. Qed.

(** A matching text holds its only underscore at the front. *)
Lemma match_here_no_inner_underscore s g :
  match_here s = Some g -> ~ In ch_underscore (tl s).
Proof.
  intros H. apply match_here_sound in H
    as (d1 & d2 & nl & -> & _ & _ & H1 & H2 & Hnl & _).
  simpl tl. rewrite forallb_forall in H1, H2. intros Hin.
  apply in_app_or in Hin as [Hin|Hin];
    [now apply (digit_not_underscore _ (H1 _ Hin))|].
  destruct Hin as [Hc|Hin]; [discriminate Hc|].
  apply in_app_or in Hin as [Hin|Hin];
    [now apply (digit_not_underscore _ (H2 _ Hin))|].
  do 4 (destruct Hin as [Hc|Hin]; [discriminate Hc|]).
  destruct nl as [|c0 [|c1 nl]].
  - destruct Hin.
  - apply N.eqb_eq in Hnl. subst c0. destruct Hin as [Hc|[]]. discriminate Hc.
  - discriminate Hnl.
Qed.

Lemma re_search_cons c s :
  re_search (c :: s)
  = match match_here (c :: s) with Some g => Some g | None => re_search s end.
Proof. reflexivity. Qed.

Lemma re_search_sound s g :
  re_search s = Some g -> exists pre s', s = pre ++ s' /\ match_here s' = Some g.
Proof.
  induction s as [|c s IH]; [discriminate|].
  rewrite re_search_cons.
  destruct (match_here (c :: s)) as [g'|] eqn:Hm; intros H.
  - inversion H; subst. exists [], (c :: s). auto.
  - destruct (IH H) as (pre & s' & -> & Hs'). exists (c :: pre), s'. auto.
Qed.

Lemma re_search_complete pre s g :
  match_here s = Some g -> re_search (pre ++ s) = Some g.
Proof.
  intros Hm. induction pre as [|c pre IH].
  - destruct s as [|c s]; [discriminate|].
    rewrite app_nil_l, re_search_cons. now rewrite Hm.
  - rewrite <- app_comm_cons, re_search_cons.
    destruct (match_here (c :: pre ++ s)) as [g'|] eqn:Hm'; [|exact IH].
    exfalso. apply match_here_no_inner_underscore in Hm'. apply Hm'.
    simpl tl. apply in_or_app. right.
    apply match_here_sound in Hm as (d1 & d2 & nl & -> & _). now left.
Qed.

(** ** Decimal digits *)

Lemma decimal_in_spec runs c d :
  decimal_in runs c = Some d ->
  exists start len,
    In (start, len) runs /\ start <= c < start + len /\ d = (c - start) mod 10.
Proof.
  induction runs as [|[start len] runs IH]; simpl; [discriminate|].
  destruct ((start <=? c) && (c <? start + len)) eqn:Hc.
  - intros H; inversion H; subst.
    apply andb_true_iff in Hc as [H1 H2].
    apply N.leb_le in H1. apply N.ltb_lt in H2.
    exists start, len. auto.
  - intros H. destruct (IH H) as (s & l & Hin & Hr). exists s, l. auto.
Qed.

Lemma nd_runs_ascii start len :
  In (start, len) nd_runs -> (start = 48 /\ len = 10) \/ 1632 <= start.
Proof.
  unfold nd_runs. simpl.
  intros H.
  repeat (destruct H as [H|H]; [inversion H; subst; (now left) || (right; lia)|]).
  destruct H.
Qed.

Lemma py_isspace_cases c :
  py_isspace c = true ->
  9 <= c <= 13 \/ 28 <= c <= 32 \/ c = 133 \/ c = 160 \/ c = 5760
  \/ 8192 <= c <= 8202 \/ c = 8232 \/ c = 8233 \/ c = 8239 \/ c = 8287
  \/ c = 12288.
Proof.
  unfold py_isspace.
  rewrite !orb_true_iff, !andb_true_iff, !N.leb_le, !N.eqb_eq. tauto.
Qed.

Lemma digit_not_space c d : unicode_decimal c = Some d -> py_isspace c = false.
Proof.
  intros H. apply decimal_in_spec in H as (start & len & Hin & Hr & _).
  apply not_true_is_false. intros Hs. apply py_isspace_cases in Hs.
  unfold nd_runs in Hin. simpl in Hin.
  repeat (destruct Hin as [Hin|Hin]; [inversion Hin; subst; lia|]).
  destruct Hin.
Qed.

Lemma digit_value_bound c d : unicode_decimal c = Some d -> d < 10.
Proof.
  intros H. apply decimal_in_spec in H as (start & len & _ & _ & ->).
  now apply N.mod_lt.
Qed.

Lemma ascii_digit_value c d :
  c < 128 -> unicode_decimal c = Some d -> c = 48 + d /\ d < 10.
Proof.
  intros Hc H. apply decimal_in_spec in H as (start & len & Hin & Hr & ->).
  apply nd_runs_ascii in Hin as [[-> ->]|Hs]; [|lia].
  assert (Hlt : c - 48 < 10) by lia.
  rewrite (N.mod_small _ _ Hlt). lia.
Qed.

Lemma unicode_decimal_ascii d : d < 10 -> unicode_decimal (48 + d) = Some d.
Proof.
  intros H.
  assert (Hd : d = 0 \/ d = 1 \/ d = 2 \/ d = 3 \/ d = 4 \/ d = 5 \/ d = 6
               \/ d = 7 \/ d = 8 \/ d = 9) by lia.
  repeat (destruct Hd as [->|Hd]; [reflexivity|]). now subst.
Qed.

Lemma is_ascii_digit_spec c : is_ascii_digit c = true <-> 48 <= c <= 57.
Proof.
  unfold is_ascii_digit. now rewrite andb_true_iff, !N.leb_le.
Qed.

Lemma asciify_digit c :
  is_digit c = true ->
  is_ascii_digit (asciify c) = true /\ unicode_decimal (asciify c) = unicode_decimal c.
Proof.
  unfold is_digit, asciify. destruct (unicode_decimal c) as [d|] eqn:H; [|discriminate].
  intros _. pose proof (digit_value_bound _ _ H) as Hd. split.
  - apply is_ascii_digit_spec. lia.
  - now apply unicode_decimal_ascii.
Qed.

Lemma asciify_small_digit c : c < 128 -> is_digit c = true -> asciify c = c.
Proof.
  unfold is_digit, asciify. destruct (unicode_decimal c) as [d|] eqn:H; [|discriminate].
  intros Hc _. destruct (ascii_digit_value _ _ Hc H) as [-> _]. reflexivity.
Qed.

Lemma asciify_small c : c < 128 -> group_char c = true -> asciify c = c.
Proof.
  intros Hc H. apply orb_true_iff in H as [H|H].
  - now apply asciify_small_digit.
  - apply N.eqb_eq in H. subst. reflexivity.
Qed.

Lemma transform_chars_group g :
  forallb group_char g = true -> transform_chars g = map asciify g.
Proof.
  induction g as [|c g IH]; simpl; [reflexivity|].
  intros H. apply andb_true_iff in H as [Hc Hg]. rewrite (IH Hg).
  destruct (N.ltb_spec c 127) as [Hlt|Hge].
  - rewrite asciify_small; auto. lia.
  - apply orb_true_iff in Hc as [Hc|Hc].
    + unfold is_digit in Hc. unfold asciify.
      destruct (unicode_decimal c) as [d|] eqn:Hd; [|discriminate].
      now rewrite (digit_not_space _ _ Hd).
    + apply N.eqb_eq in Hc. subst. unfold ch_dot in Hge. lia.
Qed.

Lemma transform_group g :
  forallb group_char g = true -> transform_decimal_and_space g = map asciify g.
Proof.
  intros H. unfold transform_decimal_and_space.
  destruct (forallb (fun c => c <? 128) g) eqn:Ha.
  - clear -H Ha. induction g as [|c g IH]; [reflexivity|].
    simpl in *. apply andb_true_iff in H as [Hc Hg].
    apply andb_true_iff in Ha as [Hlt Ha]. apply N.ltb_lt in Hlt.
    now rewrite asciify_small, <- IH.
  - now apply transform_chars_group.
Qed.

Lemma fold_digits_asciify ds acc :
  forallb is_digit ds = true ->
  fold_left digit_step (map asciify ds) acc = fold_left digit_step ds acc.
Proof.
  revert acc. induction ds as [|c ds IH]; intros acc H; [reflexivity|].
  simpl in *. apply andb_true_iff in H as [Hc Hds].
  unfold digit_step at 2 4. destruct (asciify_digit _ Hc) as [_ ->]. now apply IH.
Qed.

Lemma digits_value_asciify ds :
  forallb is_digit ds = true -> digits_value (map asciify ds) = digits_value ds.
Proof. apply fold_digits_asciify. Qed.

Lemma ascii_digits_asciify ds :
  forallb is_digit ds = true -> forallb is_ascii_digit (map asciify ds) = true.
Proof.
  induction ds as [|c ds IH]; simpl; [reflexivity|].
  intros H. apply andb_true_iff in H as [Hc Hds].
  destruct (asciify_digit _ Hc) as [-> _]. now apply IH.
Qed.

Lemma ascii_digit_plain c :
  is_ascii_digit c = true ->
  c <> ch_underscore /\ c_isspace c = false /\ c <> ch_minus /\ c <> ch_plus.
Proof.
  intros H. apply is_ascii_digit_spec in H.
  unfold ch_underscore, ch_minus, ch_plus, c_isspace.
  repeat split; try lia.
  apply not_true_is_false.
  rewrite orb_true_iff, andb_true_iff, !N.leb_le, N.eqb_eq. lia.
Qed.

Lemma no_underscore_in_digits ds :
  forallb is_ascii_digit ds = true ->
  existsb (fun c => c =? ch_underscore) ds = false.
Proof.
  induction ds as [|c ds IH]; simpl; [reflexivity|].
  intros H. apply andb_true_iff in H as [Hc Hds].
  destruct (ascii_digit_plain _ Hc) as (Hu & _).
  apply N.eqb_neq in Hu. now rewrite Hu, IH.
Qed.

Lemma rev_drop_while_last p (s : pystr) c :
  p c = false -> rev (drop_while p (rev (s ++ [c]))) = s ++ [c].
Proof.
  intros H. rewrite rev_app_distr. simpl. rewrite H.
  change (c :: rev s) with ([c] ++ rev s).
  now rewrite rev_app_distr, rev_involutive.
Qed.

Lemma forallb_digit_group ds :
  forallb is_digit ds = true -> forallb group_char ds = true.
Proof.
  rewrite !forallb_forall. intros H c Hc. unfold group_char. now rewrite (H c Hc).
Qed.

(** [float] accepts a run of digits, a dot and a run of digits, whatever
    the script of the digits, and gives the decimal the digits spell. *)
Lemma py_float_group d1 d2 :
  d1 <> [] -> d2 <> [] ->
  forallb is_digit d1 = true -> forallb is_digit d2 = true ->
  py_float (d1 ++ ch_dot :: d2)
  = Some (float_of_decimal false (digits_value (d1 ++ d2)) (- Z.of_nat (length d2))).
Proof.
  intros N1 N2 H1 H2. unfold py_float.
  assert (Hg : forallb group_char (d1 ++ ch_dot :: d2) = true).
  { rewrite forallb_app.
    change (forallb group_char (ch_dot :: d2)) with (forallb group_char d2).
    rewrite !(forallb_digit_group _) by assumption. reflexivity. }
  rewrite (transform_group _ Hg), map_app. simpl map.
  change (asciify ch_dot) with ch_dot.
  set (D1 := map asciify d1). set (D2 := map asciify d2).
  pose proof (ascii_digits_asciify _ H1) as HD1. fold D1 in HD1.
  pose proof (ascii_digits_asciify _ H2) as HD2. fold D2 in HD2.
  assert (Hnu : number_with_underscores (D1 ++ ch_dot :: D2) = Some (D1 ++ ch_dot :: D2)).
  { unfold number_with_underscores. rewrite existsb_app. simpl.
    now rewrite !no_underscore_in_digits. }
  rewrite Hnu.
  destruct D1 as [|x D1'] eqn:ED1.
  { destruct d1; [contradiction|discriminate]. }
  simpl in HD1. apply andb_true_iff in HD1 as [Hx HD1'].
  destruct (ascii_digit_plain _ Hx) as (_ & Hsx & Hmx & Hpx).
  rewrite <- app_comm_cons, (drop_while_head _ _ _ Hsx).
  destruct (exists_last (l := D2)) as (D2' & y & ED2).
  { intros E. destruct d2; [contradiction|]. subst D2. discriminate. }
  assert (HD2' : forallb is_ascii_digit D2' = true /\ is_ascii_digit y = true).
  { rewrite ED2, forallb_app in HD2. simpl in HD2.
    rewrite andb_true_r in HD2. now apply andb_true_iff in HD2. }
  destruct HD2' as [HD2' Hy].
  destruct (ascii_digit_plain _ Hy) as (_ & Hsy & _).
  assert (Hstrip :
    rev (drop_while c_isspace (rev (x :: D1' ++ ch_dot :: D2))) = x :: D1' ++ ch_dot :: D2).
  { rewrite ED2.
    change (x :: D1' ++ ch_dot :: D2' ++ [y])
      with ((x :: D1') ++ (ch_dot :: D2') ++ [y]).
    rewrite app_assoc. now apply rev_drop_while_last. }
  rewrite Hstrip.
  unfold string_to_double, split_sign.
  apply N.eqb_neq in Hmx, Hpx. rewrite Hmx, Hpx.
  unfold parse_decimal.
  change (x :: D1' ++ ch_dot :: D2) with ((x :: D1') ++ ch_dot :: D2).
  rewrite (span_app is_ascii_digit (x :: D1') (ch_dot :: D2));
    [|simpl; now rewrite Hx, HD1'|reflexivity].
  rewrite N.eqb_refl.
  rewrite <- (app_nil_r D2) at 1.
  rewrite (span_app is_ascii_digit D2 []); [|assumption|exact I].
  rewrite <- app_comm_cons. cbn [parse_exponent]. cbv beta iota.
  rewrite app_comm_cons, <- ED1. subst D1 D2.
  rewrite <- map_app, digits_value_asciify, length_map, Z.sub_0_l; [reflexivity|].
  rewrite forallb_app. now rewrite H1, H2.
Qed.

(** ** Threshold resolution *)

Example threshold_edogawa_6 :
  extract_threshold_from_filename
    (u "モデル/一月用モデル/江戸川6_78910_3456位モデル_0125_0.95.txt")
  = (Ok 0.95%float, []).
Proof. vm_compute. reflexivity. Qed.

Example threshold_fullwidth_digits :
  extract_threshold_from_filename (u "m_０.９５.txt") = (Ok 0.95%float, []).
Proof. vm_compute. reflexivity. Qed.

Lemma float_neq (x y : float) :
  PrimFloat.eqb x y = false -> PrimFloat.eqb x x = true -> x <> y.
Proof. intros H Hx E. subst y. congruence. Qed.

(** C3, as stated, fails: the claim promises the trailing number for any
    extension, but a file named [..._0.95.bin] resolves to the default 0.5,
    with the warning; only [.txt] is recognised. *)
Lemma threshold_other_extension_counterexample :
  extract_threshold_from_filename (u "江戸川6_78910_3456位モデル_0125_0.95.bin")
  = (Ok default_threshold,
     [warning_threshold_default (u "江戸川6_78910_3456位モデル_0125_0.95.bin")])
  /\ default_threshold <> 0.95%float.
Proof.
  split; [vm_compute; reflexivity|].
  apply float_neq; vm_compute; reflexivity.
Qed.

(** C3, amended: threshold resolution never raises.  When the base name of
    the path ends with an underscore, digits, a dot, digits and [.txt]
    (a final newline apart), it returns the binary64 nearest to that
    decimal and emits nothing; for every other path, whatever its
    extension, it returns the default 0.5 and emits the warning.  So
    ["江戸川6_78910_3456位モデル_0125_0.95.txt"] yields 0.95 and ["model.txt"]
    yields 0.5 with the warning. *)
Theorem extract_threshold_txt_only :
  (forall file_path,
      (exists d1 d2,
          threshold_shape (basename file_path) d1 d2
          /\ extract_threshold_from_filename file_path
             = (Ok (float_of_decimal false (digits_value (d1 ++ d2))
                      (- Z.of_nat (length d2))), []))
      \/ ((forall d1 d2, ~ threshold_shape (basename file_path) d1 d2)
          /\ extract_threshold_from_filename file_path
             = (Ok default_threshold,
                [warning_threshold_default (basename file_path)])))
  /\ extract_threshold_from_filename (u "江戸川6_78910_3456位モデル_0125_0.95.txt")
     = (Ok 0.95%float, [])
  /\ extract_threshold_from_filename (u "model.txt")
     = (Ok 0.5%float, [warning_threshold_default (u "model.txt")]).
Proof.
  split; [|split; vm_compute; reflexivity].
  intros file_path. unfold extract_threshold_from_filename.
  destruct (re_search (basename file_path)) as [g|] eqn:Hs.
  - left. apply re_search_sound in Hs as (pre & s' & Hb & Hm).
    apply match_here_sound in Hm
      as (d1 & d2 & nl & -> & N1 & N2 & H1 & H2 & Hnl & ->).
    exists d1, d2. split.
    + exists pre, nl. auto 10.
    + now rewrite py_float_group.
  - right. split; [|reflexivity].
    intros d1 d2 (pre & nl & Hb & N1 & N2 & H1 & H2 & Hnl).
    rewrite Hb, (re_search_complete pre _ _ (match_here_complete d1 d2 nl N1 N2 H1 H2 Hnl))
      in Hs.
    discriminate.
Qed.

(** ** Columns of a table *)

Lemma mem_In c l : mem c l = true <-> In c l.
Proof.
  unfold mem. rewrite existsb_exists. split.
  - intros (x & Hx & E). apply String.eqb_eq in E. now subst.
  - intros H. exists c. split; [assumption|apply String.eqb_refl].
Qed.

Lemma mem_false c l : mem c l = false <-> ~ In c l.
Proof.
  rewrite <- mem_In. destruct (mem c l); split; congruence.
Qed.

Lemma lookup_none {A} c (cs : list (string * A)) :
  lookup c cs = None <-> mem c (map fst cs) = false.
Proof.
  induction cs as [|[k v] cs IH]; simpl; [tauto|].
  destruct (String.eqb c k); simpl; [split; discriminate|exact IH].
Qed.

Lemma lookup_some_mem {A} c (cs : list (string * A)) v :
  lookup c cs = Some v -> mem c (map fst cs) = true.
Proof.
  intros H. destruct (mem c (map fst cs)) eqn:E; [reflexivity|].
  apply lookup_none in E. congruence.
Qed.

Lemma lookup_app {A} c (l1 l2 : list (string * A)) :
  lookup c (l1 ++ l2)
  = match lookup c l1 with Some v => Some v | None => lookup c l2 end.
Proof.
  induction l1 as [|[k v] l1 IH]; simpl; [reflexivity|].
  now destruct (String.eqb c k).
Qed.

Lemma lookup_filter {A} (p : string -> bool) c (l : list (string * A)) :
  lookup c (filter (fun kv => p (fst kv)) l) = if p c then lookup c l else None.
Proof.
  induction l as [|[k v] l IH]; simpl; [now destruct (p c)|].
  destruct (p k) eqn:Hk; simpl; destruct (String.eqb_spec c k) as [->|Hck]; auto.
  - now rewrite Hk.
  - rewrite IH. now rewrite Hk.
Qed.

Lemma replace_col_absent c v cs :
  mem c (map fst cs) = false -> replace_col c v cs = cs ++ [(c, v)].
Proof.
  induction cs as [|[k w] cs IH]; simpl; [reflexivity|].
  destruct (String.eqb c k); simpl; [discriminate|].
  intros H. now rewrite IH.
Qed.

Lemma replace_col_names_present c v cs :
  mem c (map fst cs) = true -> map fst (replace_col c v cs) = map fst cs.
Proof.
  induction cs as [|[k w] cs IH]; simpl; [discriminate|].
  destruct (String.eqb_spec c k) as [->|Hck]; simpl; [reflexivity|].
  intros H. now rewrite IH.
Qed.

Lemma lookup_replace_same c v cs : lookup c (replace_col c v cs) = Some v.
Proof.
  induction cs as [|[k w] cs IH]; simpl.
  - now rewrite String.eqb_refl.
  - destruct (String.eqb c k) eqn:E; simpl; [now rewrite String.eqb_refl|].
    now rewrite E.
Qed.

Lemma lookup_replace_other c c' v cs :
  c <> c' -> lookup c' (replace_col c v cs) = lookup c' cs.
Proof.
  intros Hne. induction cs as [|[k w] cs IH]; simpl.
  - destruct (String.eqb_spec c' c); [congruence|reflexivity].
  - destruct (String.eqb_spec c k) as [->|Hck]; simpl.
    + destruct (String.eqb_spec c' k); [congruence|reflexivity].
    + destruct (String.eqb c' k); [reflexivity|exact IH].
Qed.

Lemma update_col_names f df c : col_names (update_col f df c) = col_names df.
Proof.
  unfold update_col. destruct (lookup c (columns df)) as [v|] eqn:E; [|reflexivity].
  unfold col_names, set_col. simpl.
  apply replace_col_names_present. now apply lookup_some_mem in E.
Qed.

Lemma fold_update_col_names f cs df :
  col_names (fold_left (update_col f) cs df) = col_names df.
Proof.
  revert df. induction cs as [|c cs IH]; intros df; simpl; [reflexivity|].
  now rewrite IH, update_col_names.
Qed.

(** Adding new columns one by one appends them in order. *)
Lemma fold_set_scalar_fresh v new df :
  NoDup new ->
  (forall c, In c new -> has_col c df = false) ->
  columns (fold_left (fun d col => set_scalar d col v) new df)
  = columns df ++ map (fun c => (c, repeat v (nrows df))) new
  /\ nrows (fold_left (fun d col => set_scalar d col v) new df) = nrows df.
Proof.
  revert df. induction new as [|c new IH]; intros df Hnd Hfresh; simpl.
  - now rewrite app_nil_r.
  - inversion Hnd as [|? ? Hc Hnd']; subst.
    assert (Hdf : columns (set_scalar df c v) = columns df ++ [(c, repeat v (nrows df))]).
    { unfold set_scalar, set_col. simpl. apply replace_col_absent.
      apply Hfresh. now left. }
    destruct (IH (set_scalar df c v) Hnd') as [Hcols Hrows].
    + intros c' Hc'. unfold has_col, col_names. rewrite Hdf, map_app.
      unfold mem. rewrite existsb_app. simpl.
      specialize (Hfresh c' (or_intror Hc')). unfold has_col, col_names, mem in Hfresh.
      rewrite Hfresh. simpl.
      destruct (String.eqb_spec c' c); [subst; contradiction|reflexivity].
    + rewrite Hcols, Hrows, Hdf. simpl. now rewrite <- app_assoc.
Qed.

(** ** Schema alignment *)

Lemma filter_all {A} (p : A -> bool) l :
  (forall x, In x l -> p x = true) -> filter p l = l.
Proof.
  induction l as [|x l IH]; simpl; intros H; [reflexivity|].
  rewrite (H x (or_introl eq_refl)), IH; auto.
Qed.

Lemma missing_columns_spec required df c :
  In c (missing_columns required df) <-> In c required /\ has_col c df = false.
Proof.
  unfold missing_columns. rewrite filter_In, negb_true_iff. tauto.
Qed.

Lemma extra_columns_spec required df c :
  In c (extra_columns required df) <-> In c (col_names df) /\ mem c required = false.
Proof.
  unfold extra_columns. rewrite filter_In, negb_true_iff. tauto.
Qed.

Lemma align_as_filter required df :
  align required df
  = drop_cols (fold_left (fun d col => set_scalar d col (CNum nan))
                 (missing_columns required df) df)
      (extra_columns required df).
Proof.
  unfold align. destruct (extra_columns required df) eqn:E; [|reflexivity].
  unfold drop_cols. simpl.
  rewrite filter_all by reflexivity.
  now destruct (fold_left _ _ _).
Qed.

Lemma align_columns required df :
  NoDup required ->
  columns (align required df)
  = filter (fun kv => mem (fst kv) required) (columns df)
    ++ map (fun c => (c, repeat (CNum nan) (nrows df))) (missing_columns required df)
  /\ nrows (align required df) = nrows df.
Proof.
  intros Hnd. rewrite align_as_filter. unfold drop_cols. simpl.
  destruct (fold_set_scalar_fresh (CNum nan) (missing_columns required df) df)
    as [Hcols Hrows].
  { unfold missing_columns. now apply NoDup_filter. }
  { intros c Hc. now apply missing_columns_spec in Hc. }
  split; [|exact Hrows].
  rewrite Hcols, filter_app. f_equal.
  - apply filter_ext_in. intros [k v] Hin. simpl.
    destruct (mem k (extra_columns required df)) eqn:E.
    + apply mem_In, extra_columns_spec in E as [_ E]. now rewrite E.
    + destruct (mem k required) eqn:Hr; [reflexivity|].
      apply mem_false in E. exfalso. apply E. apply extra_columns_spec.
      split; [|assumption]. unfold col_names. apply in_map_iff. now exists (k, v).
  - apply filter_all. intros [k v] Hin. simpl.
    apply in_map_iff in Hin as (c & E & Hc). inversion E; subst.
    apply negb_true_iff, mem_false. intros Hx.
    apply extra_columns_spec in Hx as [_ Hx].
    apply missing_columns_spec in Hc as [Hc _].
    apply mem_In in Hc. congruence.
Qed.

Lemma lookup_fresh_columns (v : column) c new :
  lookup c (map (fun c => (c, v)) new) = if mem c new then Some v else None.
Proof.
  induction new as [|k new IH]; simpl; [reflexivity|].
  destruct (String.eqb c k); simpl; [reflexivity|exact IH].
Qed.

(** The frame of the claim's example: columns A, C and D. *)
Example align_example :
  let df := {| nrows := 1;
               columns := [("A"%string, [CInt 1]); ("C"%string, [CInt 3]);
                           ("D"%string, [CInt 4])] |} in
  columns (align ["A"; "B"; "C"]%string df)
  = [("A"%string, [CInt 1]); ("C"%string, [CInt 3]); ("B"%string, [CNum nan])].
Proof. reflexivity. Qed.

(** C4, as stated, fails: with required columns A, B, C and a table with
    columns A, C, D, the aligned table has the columns A, C, B in that
    order, not A, B, C: the inserted column goes last. *)
Lemma align_order_counterexample :
  let df := {| nrows := 1;
               columns := [("A"%string, [CInt 1]); ("C"%string, [CInt 3]);
                           ("D"%string, [CInt 4])] |} in
  col_names (align ["A"; "B"; "C"]%string df) = ["A"; "C"; "B"]%string
  /\ col_names (align ["A"; "B"; "C"]%string df) <> ["A"; "B"; "C"]%string.
Proof. split; [reflexivity|discriminate]. Qed.

(** C4, amended: for every feature table and every duplicate-free list
    of required columns, alignment keeps the table's own required columns
    with their cells, in the table's order, and puts after them each
    required column the table lacks, in the declared order, filled with NaN
    (not 0); every table column outside the list is dropped; and the
    conversions done before scoring leave the column names and their order
    unchanged. *)
Theorem align_schema :
  forall (P : Pandas) (required : list string) (df : DataFrame),
    NoDup required ->
    col_names (align required df)
    = filter (fun c => mem c required) (col_names df) ++ missing_columns required df
    /\ (forall c, In c (missing_columns required df) ->
                  get_col (align required df) c = Ok (repeat (CNum nan) (nrows df)))
    /\ (forall c, has_col c df = true -> mem c required = false ->
                  has_col c (align required df) = false)
    /\ (forall c, has_col c df = true -> mem c required = true ->
                  get_col (align required df) c = get_col df c)
    /\ col_names (fold_left (update_col (to_float_cell P)) cols_to_convert
                    (align required df))
       = col_names (align required df).
Proof.
  intros P required df Hnd.
  destruct (align_columns required df Hnd) as [Hcols Hrows].
  assert (Hnames : col_names (align required df)
                   = filter (fun c => mem c required) (col_names df)
                     ++ missing_columns required df).
  { unfold col_names. rewrite Hcols, map_app, map_map. simpl. rewrite map_id.
    f_equal. clear. induction (columns df) as [|[k v] l IH]; simpl; [reflexivity|].
    destruct (mem k required); simpl; now rewrite IH. }
  repeat split.
  - exact Hnames.
  - intros c Hc. unfold get_col. rewrite Hcols, lookup_app.
    rewrite (lookup_filter (fun k => mem k required)).
    pose proof Hc as Hc'. apply missing_columns_spec in Hc' as [Hreq Habs].
    apply mem_In in Hreq. rewrite Hreq.
    assert (Hl : lookup c (columns df) = None) by now apply lookup_none.
    rewrite Hl, lookup_fresh_columns.
    apply mem_In in Hc. now rewrite Hc.
  - intros c Hc Hreq. unfold has_col. rewrite Hnames.
    apply mem_false. rewrite in_app_iff, filter_In, missing_columns_spec.
    intros [[_ H]|[H _]]; [congruence|]. apply mem_In in H. congruence.
  - intros c Hc Hreq. unfold get_col. rewrite Hcols, lookup_app.
    rewrite (lookup_filter (fun k => mem k required)), Hreq.
    destruct (lookup c (columns df)) as [v|] eqn:E; [reflexivity|].
    apply lookup_none in E. unfold has_col, col_names in Hc. congruence.
  - apply fold_update_col_names.
Qed.

(** The hypothesis of [align_schema] holds of the claim's example. *)
Lemma align_schema_witness :
  let df := {| nrows := 1;
               columns := [("A"%string, [CInt 1]); ("C"%string, [CInt 3]);
                           ("D"%string, [CInt 4])] |} in
  col_names (align ["A"; "B"; "C"]%string df)
  = filter (fun c => mem c ["A"; "B"; "C"]%string) (col_names df)
    ++ missing_columns ["A"; "B"; "C"]%string df.
Proof.
  intros df.
  refine (proj1 (align_schema pandas_ref ["A"; "B"; "C"]%string df _)).
  repeat constructor; simpl; intuition discriminate.
Defined.

(** ** The [try] body, block by block *)

Lemma registered_threshold v entry g :
  lookup v MODEL_PATHS = Some entry ->
  extract_threshold_from_filename (model_path entry g)
  = (Ok (threshold_of (model_path entry g)), []).
Proof.
  unfold MODEL_PATHS, lookup.
  repeat (destruct (String.eqb v _);
          [intros H; inversion H; subst entry; destruct g; vm_compute; reflexivity|]).
  discriminate.
Qed.

Lemma registered_not_empty v entry :
  lookup v MODEL_PATHS = Some entry -> String.eqb v "" = false.
Proof.
  intros H. destruct (String.eqb_spec v ""); [subst; discriminate|reflexivity].
Qed.

Lemma venue_entry_registered v entry :
  lookup v MODEL_PATHS = Some entry -> venue_entry (Some v) = Some entry.
Proof.
  intros H. unfold venue_entry. now rewrite (registered_not_empty _ _ H).
Qed.

Lemma binarize_length t pred : length (binarize t pred) = length pred.
Proof. apply length_map. Qed.

Section Blocks.
Variable L : Lgb.
Variables (v : string) (entry : pystr * pystr).
Hypothesis Hv : lookup v MODEL_PATHS = Some entry.

Lemma score_block_empty g s :
  empty (frame g s) = true -> score_block L entry g s = (Ok tt, s).
Proof.
  intros He. unfold score_block, bind, get_frame. now rewrite He.
Qed.

Lemma state_eta s :
  {| test_df := test_df s; test_df6 := test_df6 s;
     model_info_list := model_info_list s; trace := trace s |} = s.
Proof. now destruct s. Qed.

Lemma score_block_load_fails g s e :
  empty (frame g s) = false ->
  Booster_load L (model_path entry g) = Raise e ->
  score_block L entry g s = (Raise e, s).
Proof.
  intros He Hl. unfold score_block, bind, get_frame, extract_threshold, lift.
  rewrite He, (registered_threshold _ _ g Hv), Hl. simpl.
  now rewrite app_nil_r, state_eta.
Qed.

Lemma score_block_ok g s b pred :
  empty (frame g s) = false ->
  Booster_load L (model_path entry g) = Ok b ->
  predict b (frame g s) = Ok pred ->
  length pred = nrows (frame g s) ->
  score_block L entry g s = (Ok tt, block_done entry g pred s).
Proof.
  intros He Hl Hp Hlen.
  unfold score_block, bind, get_frame, extract_threshold, lift, emit, put_frame,
    append_info, assign_array.
  rewrite He, (registered_threshold _ _ g Hv), Hl. simpl.
  rewrite Hp, length_map, Hlen, Nat.eqb_refl.
  rewrite binarize_length, Hlen, Nat.eqb_refl.
  unfold block_done, scored. rewrite app_nil_r.
  destruct g; reflexivity.
Qed.
End Blocks.

(** ** Rows and columns under slicing and concatenation *)

Lemma mem_replace_col c c' v cs :
  mem c (map fst (replace_col c' v cs)) = mem c (map fst cs) || String.eqb c c'.
Proof.
  induction cs as [|[k w] cs IH]; simpl.
  - now rewrite orb_false_r.
  - destruct (String.eqb_spec c' k) as [->|Hne]; simpl.
    + destruct (String.eqb c k); simpl; [reflexivity|].
      now destruct (mem c (map fst cs)).
    + rewrite IH. now destruct (String.eqb c k).
Qed.

Lemma has_col_set_col c c' v df :
  has_col c (set_col df c' v) = has_col c df || String.eqb c c'.
Proof. apply mem_replace_col. Qed.

Lemma get_col_set_col_same c v df : get_col (set_col df c v) c = Ok v.
Proof. unfold get_col, set_col. simpl. now rewrite lookup_replace_same. Qed.

Lemma get_col_set_col_other c c' v df :
  c' <> c -> get_col (set_col df c' v) c = get_col df c.
Proof.
  intros H. unfold get_col, set_col. simpl. now rewrite lookup_replace_other.
Qed.

Lemma lookup_map_values {A B} (f : A -> B) c (cs : list (string * A)) :
  lookup c (map (fun kv => (fst kv, f (snd kv))) cs) = option_map f (lookup c cs).
Proof.
  induction cs as [|[k w] cs IH]; simpl; [reflexivity|].
  now destruct (String.eqb c k).
Qed.

Lemma names_map_values {A B} (f : A -> B) (cs : list (string * A)) :
  map fst (map (fun kv => (fst kv, f (snd kv))) cs) = map fst cs.
Proof. rewrite map_map. reflexivity. Qed.

Lemma lookup_map_names {A} (f : string -> A) c names :
  lookup c (map (fun k => (k, f k)) names) = if mem c names then Some (f c) else None.
Proof.
  induction names as [|k names IH]; simpl; [reflexivity|].
  destruct (String.eqb_spec c k) as [->|]; simpl; [reflexivity|exact IH].
Qed.

Lemma mem_app c l1 l2 : mem c (l1 ++ l2) = mem c l1 || mem c l2.
Proof. apply existsb_app. Qed.

Lemma mem_filter c p l : mem c (filter p l) = mem c l && p c.
Proof.
  induction l as [|k l IH]; simpl; [reflexivity|].
  destruct (p k) eqn:Hk; simpl; rewrite IH;
    destruct (String.eqb_spec c k) as [->|]; simpl; rewrite ?Hk;
    auto using andb_false_r.
Qed.


Lemma get_col_concat c a b :
  has_col c a || has_col c b = true ->
  get_col (concat a b) c = Ok (cells_or_nan a c ++ cells_or_nan b c).
Proof.
  intros H. unfold get_col, concat. simpl.
  rewrite (lookup_map_names (fun c => cells_or_nan a c ++ cells_or_nan b c)).
  rewrite mem_app, mem_filter. unfold has_col in *.
  destruct (mem c (col_names a)); simpl in *; [reflexivity|].
  now rewrite H.
Qed.

Lemma has_col_head_rows c df n : has_col c (head_rows df n) = has_col c df.
Proof. unfold has_col, col_names, head_rows. simpl. now rewrite names_map_values. Qed.

Lemma has_col_filter_rows c df mask : has_col c (filter_rows df mask) = has_col c df.
Proof. unfold has_col, col_names, filter_rows. simpl. now rewrite names_map_values. Qed.

Lemma has_col_lookup c df : has_col c df = false <-> lookup c (columns df) = None.
Proof. symmetry. apply lookup_none. Qed.

Lemma cells_or_nan_present df c v :
  lookup c (columns df) = Some v -> cells_or_nan df c = v.
Proof. intros H. unfold cells_or_nan. now rewrite H. Qed.

Lemma cells_or_nan_absent df c :
  has_col c df = false -> cells_or_nan df c = repeat (CNum nan) (nrows df).
Proof. intros H. apply has_col_lookup in H. unfold cells_or_nan. now rewrite H. Qed.

Lemma lookup_head_rows c df n :
  lookup c (columns (head_rows df n)) = option_map (firstn n) (lookup c (columns df)).
Proof. apply lookup_map_values. Qed.

Lemma lookup_filter_rows c df mask :
  lookup c (columns (filter_rows df mask))
  = option_map (select mask) (lookup c (columns df)).
Proof. apply (lookup_map_values (select mask)). Qed.

(** Six cells split into the first five and the one the mask selects. *)
Lemma six_cells {A} (cells : list A) :
  length cells = 6%nat ->
  firstn 5 cells ++ select lane_mask cells = cells
  /\ length (select lane_mask cells) = 1%nat.
Proof.
  intros H.
  do 6 (destruct cells as [|? cells]; [discriminate|]).
  destruct cells; [|discriminate]. now split.
Qed.

Lemma lookup_In {A} c (cs : list (string * A)) v :
  lookup c cs = Some v -> In (c, v) cs.
Proof.
  induction cs as [|[k w] cs IH]; simpl; [discriminate|].
  destruct (String.eqb_spec c k) as [->|].
  - intros H; inversion H; now left.
  - intros H. right. now apply IH.
Qed.

(** ** Lane routing, scenario by scenario *)

Section Routing.
Variable L : Lgb.
Variables (v : string) (entry : pystr * pystr) (table : DataFrame).
Hypothesis Hv : lookup v MODEL_PATHS = Some entry.
Hypothesis Hlanes : get_col table "コース" = Ok (map CInt [1; 2; 3; 4; 5; 6]%Z).
Hypothesis Hrows : nrows table = 6%nat.

Lemma route_start :
  route_and_score L (Some v) table
  = Ok (reassemble (with_except (try_body L v entry) (routed table))).
Proof.
  unfold route_and_score. rewrite Hlanes, (venue_entry_registered _ _ Hv).
  reflexivity.
Qed.

Lemma table_not_empty : empty table = false.
Proof.
  unfold empty. rewrite Hrows. simpl.
  unfold get_col in Hlanes. destruct (columns table); [discriminate|reflexivity].
Qed.

Lemma table6_rows : nrows (filter_rows table lane_mask) = 1%nat.
Proof. unfold filter_rows. simpl. now rewrite Hrows. Qed.

Lemma table6_not_empty : empty (filter_rows table lane_mask) = false.
Proof.
  unfold empty. rewrite table6_rows. simpl.
  unfold get_col in Hlanes. destruct (columns table); [discriminate|reflexivity].
Qed.

Lemma table6_lanes : get_col (filter_rows table lane_mask) "コース" = Ok [CInt 6].
Proof.
  unfold get_col in *. rewrite lookup_filter_rows.
  destruct (lookup "コース" (columns table)); [|discriminate].
  inversion Hlanes; subst. reflexivity.
Qed.

(** The [course_1] model file does not load: nothing is scored. *)
Lemma route_first_load_fails e :
  Booster_load L (fst entry) = Raise e ->
  route_and_score L (Some v) table
  = Ok (reassemble
          {| test_df := table; test_df6 := filter_rows table lane_mask;
             model_info_list := []; trace := [Signal (error_signal e)] |}).
Proof.
  intros Hl. rewrite route_start. f_equal. f_equal.
  unfold with_except, try_body, bind.
  rewrite (score_block_load_fails L v entry Hv course_1 (routed table) e);
    [reflexivity|exact table_not_empty|exact Hl].
Qed.

Section FirstScored.
Variables (b1 : Booster) (s1 : list float).
Hypothesis Hload1 : Booster_load L (fst entry) = Ok b1.
Hypothesis Hpred1 : predict b1 table = Ok s1.
Hypothesis Hlen1 : length s1 = 6%nat.

Lemma first_block :
  score_block L entry course_1 (routed table)
  = (Ok tt, block_done entry course_1 s1 (routed table)).
Proof.
  apply (score_block_ok L v entry Hv course_1 (routed table) b1 s1).
  - exact table_not_empty.
  - exact Hload1.
  - exact Hpred1.
  - simpl. now rewrite Hrows.
Qed.

(** The [course_6] model file does not load: the scores of [course_1]
    stay in the table. *)
Lemma route_second_load_fails e :
  Booster_load L (snd entry) = Raise e ->
  route_and_score L (Some v) table
  = Ok (reassemble
          {| test_df := scored table course_1 (threshold_of (fst entry)) s1;
             test_df6 := filter_rows table lane_mask;
             model_info_list := [info_of entry course_1];
             trace := [PredictCall course_1 table; Signal (error_signal e)] |}).
Proof.
  intros Hl. rewrite route_start. f_equal. f_equal.
  unfold with_except, try_body, bind. rewrite first_block.
  rewrite (score_block_load_fails L v entry Hv course_6 _ e);
    [reflexivity|exact table6_not_empty|exact Hl].
Qed.

(** Both model files load and both models answer. *)
Lemma route_both_scored b6 s6 :
  Booster_load L (snd entry) = Ok b6 ->
  predict b6 (filter_rows table lane_mask) = Ok s6 ->
  length s6 = 1%nat ->
  route_and_score L (Some v) table
  = Ok (reassemble
          {| test_df := scored table course_1 (threshold_of (fst entry)) s1;
             test_df6 := scored (filter_rows table lane_mask) course_6
                           (threshold_of (snd entry)) s6;
             model_info_list := [info_of entry course_1; info_of entry course_6];
             trace := [PredictCall course_1 table;
                       PredictCall course_6 (filter_rows table lane_mask);
                       Signal (success_model_loaded v)] |}).
Proof.
  intros Hl Hp Hlen. rewrite route_start. f_equal. f_equal.
  unfold with_except, try_body, bind. rewrite first_block.
  rewrite (score_block_ok L v entry Hv course_6 _ b6 s6);
    [reflexivity|exact table6_not_empty|exact Hl|exact Hp|].
  change (length s6 = nrows (filter_rows table lane_mask)).
  now rewrite table6_rows.
Qed.
End FirstScored.
End Routing.

(** ** Reassembly *)

Lemma reassemble_keeps s :
  trace (reassemble s) = trace s
  /\ model_info_list (reassemble s) = model_info_list s
  /\ test_df6 (reassemble s) = test_df6 s.
Proof. unfold reassemble. now destruct (_ && _). Qed.

Lemma reassemble_rows s :
  nrows (test_df s) = 6%nat -> nrows (test_df6 s) = 1%nat ->
  nrows (test_df (reassemble s)) = 6%nat.
Proof.
  intros H H6. unfold reassemble. destruct (_ && _); [|exact H].
  simpl. now rewrite H, H6.
Qed.

(** A column that both tables hold comes back whole. *)
Lemma reassemble_original s c cells :
  lookup c (columns (test_df s)) = Some cells ->
  lookup c (columns (test_df6 s)) = Some (select lane_mask cells) ->
  length cells = 6%nat ->
  get_col (test_df (reassemble s)) c = Ok cells.
Proof.
  intros H H6 Hlen. unfold reassemble. destruct (_ && _).
  - simpl. rewrite get_col_concat.
    + rewrite (cells_or_nan_present _ _ (firstn 5 cells)),
        (cells_or_nan_present _ _ _ H6).
      * now rewrite (proj1 (six_cells cells Hlen)).
      * now rewrite lookup_head_rows, H.
    + rewrite has_col_head_rows. apply lookup_some_mem in H.
      unfold has_col, col_names. now rewrite H.
  - unfold get_col. now rewrite H.
Qed.

(** A column that only the first table holds ends with one NaN. *)
Lemma reassemble_only_first s c cells :
  has_col "日" (test_df s) && has_col "ラウンド" (test_df s) = true ->
  lookup c (columns (test_df s)) = Some cells ->
  has_col c (test_df6 s) = false ->
  nrows (test_df6 s) = 1%nat ->
  get_col (test_df (reassemble s)) c = Ok (firstn 5 cells ++ [CNum nan]).
Proof.
  intros Hd H H6 Hn. unfold reassemble. rewrite Hd. simpl.
  rewrite get_col_concat.
  - rewrite (cells_or_nan_present _ _ (firstn 5 cells)),
      (cells_or_nan_absent _ _ H6), Hn; [reflexivity|].
    now rewrite lookup_head_rows, H.
  - rewrite has_col_head_rows. apply lookup_some_mem in H.
    unfold has_col, col_names. now rewrite H.
Qed.

(** A column that only the lane-6 table holds starts with five NaN. *)
Lemma reassemble_only_sixth s c cells :
  has_col "日" (test_df s) && has_col "ラウンド" (test_df s) = true ->
  has_col c (test_df s) = false ->
  nrows (test_df s) = 6%nat ->
  lookup c (columns (test_df6 s)) = Some cells ->
  get_col (test_df (reassemble s)) c = Ok (repeat (CNum nan) 5 ++ cells).
Proof.
  intros Hd H Hn H6. unfold reassemble. rewrite Hd. simpl.
  rewrite get_col_concat.
  - rewrite (cells_or_nan_present _ _ _ H6), cells_or_nan_absent.
    + simpl. now rewrite Hn.
    + now rewrite has_col_head_rows.
  - apply lookup_some_mem in H6. unfold has_col at 2, col_names.
    rewrite H6. apply orb_true_r.
Qed.

(** The columns of a scored table. *)
Lemma score_flag_distinct g g' : score_column g <> flag_column g'.
Proof. destruct g, g'; discriminate. Qed.

Lemma lookup_scored_score df g t pred :
  lookup (score_column g) (columns (scored df g t pred)) = Some (map CNum pred).
Proof.
  unfold scored, set_col. simpl.
  rewrite lookup_replace_other, lookup_replace_same; [reflexivity|].
  intros E. now apply (score_flag_distinct g g).
Qed.

Lemma lookup_scored_flag df g t pred :
  lookup (flag_column g) (columns (scored df g t pred)) = Some (binarize t pred).
Proof. unfold scored, set_col. simpl. apply lookup_replace_same. Qed.

Lemma lookup_scored_other df g t pred c :
  c <> score_column g -> c <> flag_column g ->
  lookup c (columns (scored df g t pred)) = lookup c (columns df).
Proof.
  intros H1 H2. unfold scored, set_col. simpl.
  rewrite !lookup_replace_other; auto.
Qed.

Lemma has_col_scored df g t pred c :
  has_col c (scored df g t pred)
  = has_col c df || String.eqb c (score_column g) || String.eqb c (flag_column g).
Proof. unfold scored. now rewrite !has_col_set_col. Qed.

Lemma not_prediction_column c g :
  ~ In c prediction_columns -> c <> score_column g /\ c <> flag_column g.
Proof.
  intros H. unfold prediction_columns in H.
  destruct g; split; intros E; apply H; subst c; simpl; tauto.
Qed.

Lemma well_formed_length df c cells :
  well_formed df = true -> lookup c (columns df) = Some cells ->
  length cells = nrows df.
Proof.
  intros Hwf H. apply lookup_In in H. unfold well_formed in Hwf.
  rewrite forallb_forall in Hwf. specialize (Hwf _ H). now apply Nat.eqb_eq in Hwf.
Qed.

(** ** C1: lane routing *)

(** C1, as stated, fails: on a six-row table with lanes 1 to 6 and the
    registered venue 桐生, the table handed to the lanes-1-to-5 model is the
    whole table, six rows with the lane-6 row among them, not the five rows
    with lane other than 6. *)
Lemma lane_routing_counterexample :
  exists final,
    route_and_score (lgb_all [] 0.7%float) (Some "桐生"%string) demo_table = Ok final
    /\ get_col demo_table "コース" = Ok (map CInt [1; 2; 3; 4; 5; 6]%Z)
    /\ predict_calls course_1 (trace final) = [demo_table]
    /\ nrows demo_table = 6%nat
    /\ predict_calls course_1 (trace final)
       <> [filter_rows demo_table (map negb lane_mask)].
Proof.
  eexists. split; [vm_compute; reflexivity|].
  repeat split; try reflexivity.
  intros H. inversion H.
Qed.

(** C1, amended: for every well-formed six-row table with lanes 1 to 6 in
    row order and a registered venue whose two models load and answer, the
    lanes-1-to-5 model is handed the whole table, all six rows, and the
    lane-6 model is handed exactly the one row with lane 6; the final table
    has six rows and returns every original column unchanged, so it covers
    the six original rows exactly once, in order. *)
Theorem lane_routing :
  forall (L : Lgb) (v : string) (entry : pystr * pystr) (table : DataFrame)
         (b1 b6 : Booster) (s1 s6 : list float),
    lookup v MODEL_PATHS = Some entry ->
    get_col table "コース" = Ok (map CInt [1; 2; 3; 4; 5; 6]%Z) ->
    nrows table = 6%nat ->
    well_formed table = true ->
    Booster_load L (fst entry) = Ok b1 ->
    predict b1 table = Ok s1 ->
    length s1 = 6%nat ->
    Booster_load L (snd entry) = Ok b6 ->
    predict b6 (filter_rows table lane_mask) = Ok s6 ->
    length s6 = 1%nat ->
    exists final,
      route_and_score L (Some v) table = Ok final
      /\ predict_calls course_1 (trace final) = [table]
      /\ predict_calls course_6 (trace final) = [filter_rows table lane_mask]
      /\ nrows (filter_rows table lane_mask) = 1%nat
      /\ get_col (filter_rows table lane_mask) "コース" = Ok [CInt 6]
      /\ nrows (test_df final) = 6%nat
      /\ (forall c, has_col c table = true -> ~ In c prediction_columns ->
                    get_col (test_df final) c = get_col table c).
Proof.
  intros L v entry table b1 b6 s1 s6 Hv Hlanes Hrows Hwf Hl1 Hp1 Hn1 Hl6 Hp6 Hn6.
  eexists. split.
  { exact (route_both_scored L v entry table Hv Hlanes Hrows b1 s1 Hl1 Hp1 Hn1
             b6 s6 Hl6 Hp6 Hn6). }
  match goal with |- context [reassemble ?s] => set (st := s) end.
  destruct (reassemble_keeps st) as (Ht & _ & _).
  rewrite Ht.
  split; [reflexivity|]. split; [reflexivity|].
  split; [exact (table6_rows table Hrows)|].
  split; [exact (table6_lanes table Hlanes)|].
  split.
  - apply reassemble_rows; [exact Hrows|exact (table6_rows table Hrows)].
  - intros c Hc Hnp.
    destruct (lookup c (columns table)) as [cells|] eqn:E.
    2:{ apply has_col_lookup in E. congruence. }
    unfold get_col at 2. rewrite E.
    apply reassemble_original.
    + subst st. simpl test_df.
      destruct (not_prediction_column c course_1 Hnp).
      now rewrite lookup_scored_other.
    + subst st. simpl test_df6.
      destruct (not_prediction_column c course_6 Hnp).
      rewrite lookup_scored_other by assumption.
      now rewrite lookup_filter_rows, E.
    + rewrite (well_formed_length _ _ _ Hwf E). exact Hrows.
Qed.

(** The hypotheses of [lane_routing] hold of the demonstration table. *)
Lemma lane_routing_witness :
  exists final,
    route_and_score (lgb_all [] 0.7%float) (Some "桐生"%string) demo_table = Ok final
    /\ predict_calls course_1 (trace final) = [demo_table]
    /\ predict_calls course_6 (trace final) = [filter_rows demo_table lane_mask]
    /\ nrows (filter_rows demo_table lane_mask) = 1%nat
    /\ get_col (filter_rows demo_table lane_mask) "コース" = Ok [CInt 6]
    /\ nrows (test_df final) = 6%nat
    /\ (forall c, has_col c demo_table = true -> ~ In c prediction_columns ->
                  get_col (test_df final) c = get_col demo_table c).
Proof.
  apply (lane_routing (lgb_all [] 0.7%float) "桐生"%string kiryu_entry demo_table
           (constant_booster [] 0.7%float) (constant_booster [] 0.7%float)
           (repeat 0.7%float 6) (repeat 0.7%float 1)); reflexivity.
Defined.

(** ** C10: the prediction columns of the reassembled table *)

Lemma firstn_binarize n t pred : firstn n (binarize t pred) = binarize t (firstn n pred).
Proof. unfold binarize. now rewrite firstn_map. Qed.

(** C10: in the reassembled table of a run in which both models answered,
    the five rows of lanes 1 to 5 hold the score and flag of the
    lanes-1-to-5 model and NaN under the lane-6 model's two columns, and
    the lane-6 row holds the score and flag of the lane-6 model and NaN
    under the other model's two columns. *)
Theorem reassembled_prediction_columns :
  forall (L : Lgb) (v : string) (entry : pystr * pystr) (table : DataFrame)
         (b1 b6 : Booster) (s1 s6 : list float),
    lookup v MODEL_PATHS = Some entry ->
    get_col table "コース" = Ok (map CInt [1; 2; 3; 4; 5; 6]%Z) ->
    nrows table = 6%nat ->
    has_col "日" table = true ->
    has_col "ラウンド" table = true ->
    (forall c, In c prediction_columns -> has_col c table = false) ->
    Booster_load L (fst entry) = Ok b1 ->
    predict b1 table = Ok s1 ->
    length s1 = 6%nat ->
    Booster_load L (snd entry) = Ok b6 ->
    predict b6 (filter_rows table lane_mask) = Ok s6 ->
    length s6 = 1%nat ->
    exists final,
      route_and_score L (Some v) table = Ok final
      /\ get_col (test_df final) (score_column course_1)
         = Ok (map CNum (firstn 5 s1) ++ [CNum nan])
      /\ get_col (test_df final) (flag_column course_1)
         = Ok (binarize (threshold_of (fst entry)) (firstn 5 s1) ++ [CNum nan])
      /\ get_col (test_df final) (score_column course_6)
         = Ok (repeat (CNum nan) 5 ++ map CNum s6)
      /\ get_col (test_df final) (flag_column course_6)
         = Ok (repeat (CNum nan) 5 ++ binarize (threshold_of (snd entry)) s6).
Proof.
  intros L v entry table b1 b6 s1 s6 Hv Hlanes Hrows Hday Hround Hfresh
    Hl1 Hp1 Hn1 Hl6 Hp6 Hn6.
  eexists. split.
  { exact (route_both_scored L v entry table Hv Hlanes Hrows b1 s1 Hl1 Hp1 Hn1
             b6 s6 Hl6 Hp6 Hn6). }
  match goal with |- context [reassemble ?s] => set (st := s) end.
  assert (Hd : has_col "日" (test_df st) && has_col "ラウンド" (test_df st) = true).
  { subst st. simpl test_df. rewrite !has_col_scored, Hday, Hround. reflexivity. }
  assert (F : forall c, In c prediction_columns ->
                        has_col c (filter_rows table lane_mask) = false).
  { intros c Hc. rewrite has_col_filter_rows. now apply Hfresh. }
  assert (H6 : nrows (test_df6 st) = 1%nat) by exact (table6_rows table Hrows).
  assert (H1 : nrows (test_df st) = 6%nat) by exact Hrows.
  repeat split.
  - rewrite <- firstn_map. apply (reassemble_only_first st _ _ Hd); [|clear Hd|exact H6].
    + subst st. apply lookup_scored_score.
    + subst st. simpl test_df6. rewrite has_col_scored, F; [reflexivity|].
      unfold prediction_columns. simpl. tauto.
  - rewrite <- firstn_binarize.
    apply (reassemble_only_first st _ _ Hd); [|clear Hd|exact H6].
    + subst st. apply lookup_scored_flag.
    + subst st. simpl test_df6. rewrite has_col_scored, F; [reflexivity|].
      unfold prediction_columns. simpl. tauto.
  - apply (reassemble_only_sixth st _ _ Hd); [clear Hd|exact H1|].
    + subst st. simpl test_df. rewrite has_col_scored, Hfresh; [reflexivity|].
      unfold prediction_columns. simpl. tauto.
    + subst st. apply lookup_scored_score.
  - apply (reassemble_only_sixth st _ _ Hd); [clear Hd|exact H1|].
    + subst st. simpl test_df. rewrite has_col_scored, Hfresh; [reflexivity|].
      unfold prediction_columns. simpl. tauto.
    + subst st. apply lookup_scored_flag.
Qed.

(** The hypotheses of [reassembled_prediction_columns] hold of the
    demonstration table. *)
Lemma reassembled_prediction_columns_witness :
  exists final,
    route_and_score (lgb_all [] 0.7%float) (Some "桐生"%string) demo_table = Ok final
    /\ get_col (test_df final) (score_column course_1)
       = Ok (map CNum (firstn 5 (repeat 0.7%float 6)) ++ [CNum nan])
    /\ get_col (test_df final) (flag_column course_1)
       = Ok (binarize (threshold_of (fst kiryu_entry)) (firstn 5 (repeat 0.7%float 6))
             ++ [CNum nan])
    /\ get_col (test_df final) (score_column course_6)
       = Ok (repeat (CNum nan) 5 ++ map CNum (repeat 0.7%float 1))
    /\ get_col (test_df final) (flag_column course_6)
       = Ok (repeat (CNum nan) 5
             ++ binarize (threshold_of (snd kiryu_entry)) (repeat 0.7%float 1)).
Proof.
  apply (reassembled_prediction_columns (lgb_all [] 0.7%float) "桐生"%string
           kiryu_entry demo_table
           (constant_booster [] 0.7%float) (constant_booster [] 0.7%float)
           (repeat 0.7%float 6) (repeat 0.7%float 1)); try reflexivity.
  intros c Hc. unfold prediction_columns in Hc. simpl in Hc.
  repeat (destruct Hc as [Hc|Hc]; [subst c; reflexivity|]). destruct Hc.
Defined.

(** ** C2: a model file that does not load *)

(** C2, as stated, fails: with the lanes-1-to-5 file of 桐生 missing and
    its lane-6 file present, the run shows the error and scores nothing:
    the lane-6 model is never asked, and the final table has no lane-6
    prediction column. *)
Lemma missing_first_artifact_counterexample :
  let L := lgb_without (fst kiryu_entry) [] 0.7%float in
  exists final,
    route_and_score L (Some "桐生"%string) demo_table = Ok final
    /\ Booster_load L (fst kiryu_entry) = Raise FileNotFoundError
    /\ Booster_load L (snd kiryu_entry) = Ok (constant_booster [] 0.7%float)
    /\ trace final = [Signal error_model_file_not_found]
    /\ predict_calls course_6 (trace final) = []
    /\ has_col (score_column course_6) (test_df final) = false
    /\ has_col (flag_column course_6) (test_df final) = false.
Proof.
  eexists. split; [vm_compute; reflexivity|].
  repeat split; reflexivity.
Qed.

(** C2, amended: for a six-row table with lanes 1 to 6 and a registered
    venue, (a) when the lanes-1-to-5 model does not load, the run shows
    the error, asks no model and adds no prediction for either lane group,
    whether or not the lane-6 file is present; (b) when the lanes-1-to-5
    model has answered and the lane-6 model does not load, the run shows
    the error after scoring the table with the lanes-1-to-5 model, whose
    two prediction columns stay in the table, and the lane-6 subset is left
    without predictions.  In both cases the table is then reassembled as
    usual. *)
Theorem missing_artifact_handling :
  forall (L : Lgb) (v : string) (entry : pystr * pystr) (table : DataFrame) (e : exn),
    lookup v MODEL_PATHS = Some entry ->
    get_col table "コース" = Ok (map CInt [1; 2; 3; 4; 5; 6]%Z) ->
    nrows table = 6%nat ->
    (Booster_load L (fst entry) = Raise e ->
     route_and_score L (Some v) table
     = Ok (reassemble
             {| test_df := table; test_df6 := filter_rows table lane_mask;
                model_info_list := []; trace := [Signal (error_signal e)] |}))
    /\ (forall (b1 : Booster) (s1 : list float),
           Booster_load L (fst entry) = Ok b1 ->
           predict b1 table = Ok s1 ->
           length s1 = 6%nat ->
           Booster_load L (snd entry) = Raise e ->
           route_and_score L (Some v) table
           = Ok (reassemble
                   {| test_df := scored table course_1 (threshold_of (fst entry)) s1;
                      test_df6 := filter_rows table lane_mask;
                      model_info_list := [info_of entry course_1];
                      trace := [PredictCall course_1 table;
                                Signal (error_signal e)] |})).
Proof.
  intros L v entry table e Hv Hlanes Hrows. split.
  - now apply route_first_load_fails.
  - intros b1 s1 Hl1 Hp1 Hn1 Hl6.
    now apply (route_second_load_fails L v entry table Hv Hlanes Hrows b1 s1).
Qed.

(** The hypotheses of [missing_artifact_handling] hold of the
    demonstration table, with either file of 桐生 missing. *)
Lemma missing_artifact_handling_witness :
  route_and_score (lgb_without (fst kiryu_entry) [] 0.7%float)
    (Some "桐生"%string) demo_table
  = Ok (reassemble
          {| test_df := demo_table; test_df6 := filter_rows demo_table lane_mask;
             model_info_list := [];
             trace := [Signal (error_signal FileNotFoundError)] |})
  /\ route_and_score (lgb_without (snd kiryu_entry) [] 0.7%float)
       (Some "桐生"%string) demo_table
     = Ok (reassemble
             {| test_df := scored demo_table course_1 (threshold_of (fst kiryu_entry))
                             (repeat 0.7%float 6);
                test_df6 := filter_rows demo_table lane_mask;
                model_info_list := [info_of kiryu_entry course_1];
                trace := [PredictCall course_1 demo_table;
                          Signal (error_signal FileNotFoundError)] |}).
Proof.
  split.
  - apply (proj1 (missing_artifact_handling
                    (lgb_without (fst kiryu_entry) [] 0.7%float) "桐生"%string
                    kiryu_entry demo_table FileNotFoundError
                    eq_refl eq_refl eq_refl)).
    reflexivity.
  - apply (proj2 (missing_artifact_handling
                    (lgb_without (snd kiryu_entry) [] 0.7%float) "桐生"%string
                    kiryu_entry demo_table FileNotFoundError
                    eq_refl eq_refl eq_refl)
             (constant_booster [] 0.7%float) (repeat 0.7%float 6));
      reflexivity.
Defined.

(** ** C9: a venue without registered models *)




(** The names a session can hold are not empty, and seventeen of the
    twenty-four have no registered model. *)
Lemma page_venues_not_empty v : In v (map snd venues) -> v <> ""%string.
Proof.
  intros H E. subst v. simpl in H.
  repeat (destruct H as [H|H]; [discriminate H|]). destruct H.
Qed.

Example unregistered_page_venues :
  length (filter (fun v => match lookup v MODEL_PATHS with Some _ => false | None => true end)
            (map snd venues)) = 17%nat.
Proof. reflexivity. Qed.



(** ** C8: binarisation *)

Lemma SFcompare_Eq_sym a b : SFcompare a b = Some Eq -> SFcompare b a = Some Eq.
Proof.
  destruct a as [sa|sa| |sa ma ea], b as [sb|sb| |sb mb eb]; simpl;
    try discriminate; try reflexivity;
    try (destruct sa; discriminate); try (destruct sb; discriminate).
  - destruct sa, sb; try discriminate; reflexivity.
  - destruct sa, sb; try discriminate.
    + destruct (Z.compare ea eb) eqn:He; try discriminate.
      apply Z.compare_eq in He. subst eb. rewrite Z.compare_refl.
      destruct (Pos.compare_cont Eq ma mb) eqn:Hm; try discriminate.
      apply Pos.compare_eq in Hm. subst mb. intros _.
      change (Pos.compare_cont Eq ma ma) with (Pos.compare ma ma).
      now rewrite Pos.compare_refl.
    + destruct (Z.compare ea eb) eqn:He; try discriminate.
      apply Z.compare_eq in He. subst eb. rewrite Z.compare_refl.
      destruct (Pos.compare_cont Eq ma mb) eqn:Hm; try discriminate.
      apply Pos.compare_eq in Hm. subst mb. intros _.
      change (Pos.compare_cont Eq ma ma) with (Pos.compare ma ma).
      now rewrite Pos.compare_refl.
Qed.

Lemma SFcompare_refl a : SFcompare a a = Some Eq \/ SFcompare a a = None.
Proof.
  destruct a as [s|s| |s m e]; simpl; auto.
  - destruct s; auto.
  - left. rewrite Z.compare_refl.
    change (Pos.compare_cont Eq m m) with (Pos.compare m m).
    rewrite Pos.compare_refl. now destruct s.
Qed.

(** No float is greater than itself. *)
Lemma ltb_irrefl (x : float) : PrimFloat.ltb x x = false.
Proof.
  rewrite FloatAxioms.ltb_spec. unfold SFltb.
  destruct (SFcompare_refl (Prim2SF x)) as [-> | ->]; reflexivity.
Qed.

(** A float is not greater than one it compares equal to. *)
Lemma ltb_of_eqb (x y : float) : PrimFloat.eqb x y = true -> PrimFloat.ltb y x = false.
Proof.
  rewrite FloatAxioms.eqb_spec, FloatAxioms.ltb_spec. unfold SFeqb, SFltb.
  destruct (SFcompare (Prim2SF x) (Prim2SF y)) as [[| |]|] eqn:E; try discriminate.
  intros _. now rewrite (SFcompare_Eq_sym _ _ E).
Qed.

(** C8: for every scored row, the flag the script computes is 1 or 0, it
    is 1 exactly when the score is greater than the threshold in the
    float order, and a score equal to the threshold (the same float, or one
    that compares equal to it) gets the flag 0. *)
Theorem binarize_strict :
  forall (threshold : float) (pred : list float) (i : nat) (score : float),
    nth_error pred i = Some score ->
    exists b : Z,
      nth_error (binarize threshold pred) i = Some (CInt b)
      /\ (b = 1 \/ b = 0)%Z
      /\ (b = 1%Z <-> PrimFloat.ltb threshold score = true)
      /\ (score = threshold -> b = 0%Z)
      /\ (PrimFloat.eqb score threshold = true -> b = 0%Z).
Proof.
  intros threshold pred i score H.
  exists (if PrimFloat.ltb threshold score then 1%Z else 0%Z).
  split.
  - unfold binarize, flag. now rewrite nth_error_map, H.
  - split; [destruct (PrimFloat.ltb threshold score); auto|].
    split; [destruct (PrimFloat.ltb threshold score); split; congruence|].
    split.
    + intros ->. now rewrite ltb_irrefl.
    + intros E. now rewrite (ltb_of_eqb _ _ E).
Qed.

(** The hypothesis of [binarize_strict] holds of a score equal to the
    threshold 0.68 of 桐生. *)
Lemma binarize_strict_witness :
  exists b : Z,
    nth_error (binarize 0.68%float [0.9; 0.68; 0.1]%float) 1 = Some (CInt b)
    /\ (b = 1 \/ b = 0)%Z
    /\ (b = 1%Z <-> PrimFloat.ltb 0.68%float 0.68%float = true)
    /\ (0.68%float = 0.68%float -> b = 0%Z)
    /\ (PrimFloat.eqb 0.68%float 0.68%float = true -> b = 0%Z).
Proof.
  apply (binarize_strict 0.68%float [0.9; 0.68; 0.1]%float 1 0.68%float).
  reflexivity.
Defined.

Example binarize_boundary :
  binarize 0.68%float [0.9; 0.68; 0.1]%float = [CInt 1; CInt 0; CInt 0].
Proof. reflexivity. Qed.

(** ** C7: the opponent mean *)



(** ** C5: an age that is not a number *)

Lemma mapM_raises {A B} (f : A -> result B) (e : exn) l :
  (forall x e', f x = Raise e' -> e' = e) ->
  (exists x, In x l /\ f x = Raise e) ->
  mapM f l = Raise e.
Proof.
  intros Hf. induction l as [|x l IH]; intros (y & Hin & Hy); [destruct Hin|].
  simpl. destruct (f x) as [b|e'] eqn:Hx.
  - destruct Hin as [->|Hin]; [congruence|].
    rewrite IH; [reflexivity|]. now exists y.
  - now rewrite (Hf _ _ Hx).
Qed.

Lemma clean_age_raises_only_ValueError E c e :
  clean_age E c = Raise e -> e = ValueError.
Proof.
  unfold clean_age. destruct (py_float _); [discriminate|].
  intros H; now inversion H.
Qed.

(** The age column when the ages are cleaned. *)
Lemma age_column_before_cleaning E rs :
  lookup "年齢"
    (columns (fold_left (update_col (clean_text E)) clean_numeric_cols
                (drop_cols (frame_of_records rs) ["名前"; "L数"]%string)))
  = Some (map (fun r => CStr (age r)) rs).
Proof. reflexivity. Qed.

(** C5 does not hold of the code: the age is converted with
    [.astype(float)], which raises where the other fields are coerced.
    Whenever the first two characters of some record's age text are not a
    float literal, [derive] raises [ValueError] instead of returning. *)
Theorem derive_raises_on_unparsable_age :
  forall (E : Pandas) (rs : list RawCompetitorRecord),
    (exists r, In r rs /\ py_float (firstn 2 (age r)) = None) ->
    derive E rs = Raise ValueError.
Proof.
  intros E rs (r & Hin & Hr). unfold derive, prepare_df.
  cbv zeta. unfold update_colM at 1.
  rewrite age_column_before_cleaning.
  rewrite (mapM_raises (clean_age E) ValueError).
  - reflexivity.
  - apply clean_age_raises_only_ValueError.
  - exists (CStr (age r)). split.
    + apply in_map_iff. now exists r.
    + unfold clean_age. simpl astype_str. now rewrite Hr.
Qed.

(** The hypothesis of [derive_raises_on_unparsable_age] holds of a batch
    whose first boat has an empty age text. *)
Lemma derive_raises_on_empty_age :
  derive pandas_ref demo_records_no_age = Raise ValueError.
Proof.
  apply derive_raises_on_unparsable_age.
  eexists. split; [left; reflexivity|reflexivity].
Defined.

(** ** C6: no missing value after derivation *)

Lemma is_nan_fill x : is_nan (if is_nan x then zero else x) = false.
Proof. destruct (is_nan x) eqn:E; [reflexivity|exact E]. Qed.

Lemma fillna_not_nan c : is_str c = false -> is_number (fillna zero c) = true.
Proof.
  destruct c as [s|z|x]; simpl; [discriminate|reflexivity|].
  intros _. destruct (is_nan x) eqn:E; simpl; [reflexivity|now rewrite E].
Qed.

Lemma fillna_number_or_text c : is_str (fillna zero c) || is_number (fillna zero c) = true.
Proof.
  destruct c as [s|z|x]; simpl; try reflexivity.
  destruct (is_nan x) eqn:E; simpl; [reflexivity|now rewrite E].
Qed.

Lemma to_numeric_cell_not_text E c : is_str (to_numeric_cell E c) = false.
Proof. now destruct c. Qed.

(** The two last statements of [prepare_df] leave numbers only. *)
Lemma final_cleanup_numbers E df c cells :
  In (c, cells)
     (columns (map_object_cols (fun c => fillna zero (to_numeric_cell E c))
                 (map_cells (fillna zero) df))) ->
  forallb is_number cells = true.
Proof.
  unfold map_object_cols, map_cells. simpl. rewrite map_map. simpl.
  intros H. apply in_map_iff in H as ([k v] & E' & _). simpl in E'.
  inversion E'; subst; clear E'.
  destruct (is_object_col (map (fillna zero) v)) eqn:Ho.
  - apply forallb_forall. intros x Hx.
    apply in_map_iff in Hx as (y & <- & _).
    apply fillna_not_nan, to_numeric_cell_not_text.
  - apply forallb_forall. intros x Hx.
    unfold is_object_col in Ho.
    assert (Hs : is_str x = false).
    { destruct (is_str x) eqn:Es; [|reflexivity].
      assert (existsb is_str (map (fillna zero) v) = true)
        by (apply existsb_exists; now exists x).
      congruence. }
    apply in_map_iff in Hx as (y & <- & _).
    pose proof (fillna_number_or_text y) as Hy. now rewrite Hs in Hy.
Qed.

Ltac step_bind :=
  lazymatch goal with
  | |- rbind ?m ?k = Ok ?o -> ?G =>
      let a := fresh "df" in
      destruct m as [a|?];
      [change (k a = Ok o -> G); cbv beta zeta | intros ?; discriminate]
  end.

Lemma prepare_df_final E df0 out :
  prepare_df E df0 = Ok out ->
  exists df,
    out = map_object_cols (fun c => fillna zero (to_numeric_cell E c))
            (map_cells (fillna zero) df).
Proof.
  unfold prepare_df. cbv zeta.
  repeat step_bind.
  intros H. inversion H. eexists. reflexivity.
Qed.

(** C6: for every batch of records on which derivation returns, every
    cell of every column of the derived table is a number: no text, no
    null and no NaN is left. *)
Theorem derive_no_missing_value :
  forall (E : Pandas) (rs : list RawCompetitorRecord) (out : DataFrame),
    derive E rs = Ok out ->
    forall c cells, In (c, cells) (columns out) -> forallb is_number cells = true.
Proof.
  intros E rs out H c cells Hin.
  apply prepare_df_final in H as (df & ->).
  exact (final_cleanup_numbers E df c cells Hin).
Qed.

(** The hypothesis of [derive_no_missing_value] holds of the
    demonstration batch: derivation returns on it. *)
Lemma derive_no_missing_value_witness :
  exists out,
    derive pandas_ref demo_records = Ok out
    /\ forall c cells, In (c, cells) (columns out) -> forallb is_number cells = true.
Proof.
  destruct (derive pandas_ref demo_records) as [out|e] eqn:H.
  - exists out. split; [reflexivity|].
    exact (derive_no_missing_value pandas_ref demo_records out H).
  - vm_compute in H. discriminate H.
Defined.

(** ** Derivation returns when the ages and foul counts convert *)

Lemma rbind_assoc {A B C} (m : result A) (k1 : A -> result B) (k : B -> result C) :
  rbind (rbind m k1) k = rbind m (fun x => rbind (k1 x) k).
Proof. now destruct m. Qed.

Lemma foldM_cons {A B} (f : B -> A -> result B) x xs b :
  foldM f (x :: xs) b = rbind (f b x) (foldM f xs).
Proof. reflexivity. Qed.

Lemma foldM_nil {A B} (f : B -> A -> result B) b : foldM f [] b = Ok b.
Proof. reflexivity. Qed.

Lemma no_str_map {A} (f : A -> cell) l :
  (forall x, is_str (f x) = false) -> existsb is_str (map f l) = false.
Proof.
  intros H. induction l as [|x l IH]; simpl; [reflexivity|]. now rewrite H, IH.
Qed.

Lemma is_str_fillna v c : is_str (fillna v c) = is_str c.
Proof. destruct c as [s|z|x]; simpl; try reflexivity. now destruct (is_nan x). Qed.

Lemma mapM_as_float_ok v :
  existsb is_str v = false -> exists xs, mapM as_float v = Ok xs.
Proof.
  induction v as [|c v IH]; simpl; intros H; [now exists []|].
  apply orb_false_iff in H as [Hc Hv]. destruct (IH Hv) as (xs & ->).
  destruct c as [s|z|x]; [discriminate|eexists; reflexivity..].
Qed.

Lemma get_num_ok df c : numeric df c -> exists xs, get_num df c = Ok xs.
Proof.
  intros (v & Hl & Hv). unfold get_num, get_col. rewrite Hl.
  now apply mapM_as_float_ok.
Qed.

Lemma get_col_ok df c : has_col c df = true -> exists v, get_col df c = Ok v.
Proof.
  intros H. unfold get_col. destruct (lookup c (columns df)) as [v|] eqn:E.
  - now exists v.
  - apply has_col_lookup in E. congruence.
Qed.

Lemma numeric_set_col_same df c v :
  existsb is_str v = false -> numeric (set_col df c v) c.
Proof. intros H. exists v. split; [apply lookup_replace_same|exact H]. Qed.

Lemma numeric_set_col_other df c c' v :
  c' <> c -> numeric df c' -> numeric (set_col df c v) c'.
Proof.
  intros Hne (w & Hl & Hw). exists w. split; [|exact Hw].
  unfold set_col. simpl. rewrite lookup_replace_other; auto.
Qed.

Lemma numeric_set_col_any df c c' v :
  existsb is_str v = false -> numeric df c' -> numeric (set_col df c v) c'.
Proof.
  intros Hv H. destruct (String.eqb_spec c' c) as [->|Hne].
  - now apply numeric_set_col_same.
  - now apply numeric_set_col_other.
Qed.

Lemma has_col_set_col_keep df c c' v :
  has_col c' df = true -> has_col c' (set_col df c v) = true.
Proof. intros H. now rewrite has_col_set_col, H. Qed.

Lemma has_col_set_col_new df c v : has_col c (set_col df c v) = true.
Proof. rewrite has_col_set_col, String.eqb_refl. apply orb_true_r. Qed.

Lemma numeric_has_col df c : numeric df c -> has_col c df = true.
Proof. intros (v & Hl & _). now apply lookup_some_mem in Hl. Qed.

Lemma update_col_as_set f df c :
  has_col c df = true ->
  exists v, update_col f df c = set_col df c (map f v).
Proof.
  intros H. unfold update_col. destruct (lookup c (columns df)) as [v|] eqn:E.
  - now exists v.
  - apply has_col_lookup in E. congruence.
Qed.

Lemma derive1_ok f a name df :
  numeric df a -> exists xs, derive1 f a name df = Ok (set_col df name (map CNum xs)).
Proof.
  intros H. destruct (get_num_ok _ _ H) as (xs & Hx). unfold derive1, set_num.
  rewrite Hx. now exists (map f xs).
Qed.

Lemma derive2_ok f a b name df :
  numeric df a -> numeric df b ->
  exists xs, derive2 f a b name df = Ok (set_col df name (map CNum xs)).
Proof.
  intros Ha Hb. destruct (get_num_ok _ _ Ha) as (xs & Hx).
  destruct (get_num_ok _ _ Hb) as (ys & Hy). unfold derive2, set_num.
  rewrite Hx, Hy. now exists (map2 f xs ys).
Qed.

Lemma mapM_ok {A B} (f : A -> result B) (Q : B -> Prop) l :
  (forall x, In x l -> exists y, f x = Ok y /\ Q y) ->
  exists ys, mapM f l = Ok ys /\ Forall Q ys.
Proof.
  induction l as [|x l IH]; intros H; [now exists []|].
  destruct (H x (or_introl eq_refl)) as (y & Hy & Qy).
  destruct IH as (ys & Hys & Qys); [intros; apply H; now right|].
  exists (y :: ys). simpl. rewrite Hy, Hys. auto.
Qed.

Lemma no_str_Forall v : Forall (fun c => is_str c = false) v -> existsb is_str v = false.
Proof. induction 1; simpl; [reflexivity|]. now rewrite H, IHForall. Qed.

Lemma update_colM_ok f df c :
  has_col c df = true ->
  (forall v, lookup c (columns df) = Some v ->
             forall x, In x v -> exists y, f x = Ok y /\ is_str y = false) ->
  exists v', update_colM f df c = Ok (set_col df c v') /\ existsb is_str v' = false.
Proof.
  intros Hc Hf. unfold update_colM.
  destruct (lookup c (columns df)) as [v|] eqn:E.
  - destruct (mapM_ok f (fun y => is_str y = false) v (Hf v eq_refl)) as (ys & -> & Hys).
    exists ys. split; [reflexivity|now apply no_str_Forall].
  - apply has_col_lookup in E. congruence.
Qed.

Local Open Scope string_scope.

Lemma add_race_stats_ok race_id df f :
  numeric df f ->
  exists xs ys zs,
    add_race_stats race_id df f
    = Ok (set_col (set_col (set_col df (f ++ "_mean_全体") (map CNum xs))
                     (f ++ "_max_全体") (map CNum ys))
            (f ++ "_min_全体") (map CNum zs)).
Proof.
  intros H. destruct (get_num_ok _ _ H) as (vals & Hv).
  unfold add_race_stats, set_num. rewrite Hv. simpl. eauto.
Qed.

Lemma add_opponent_ok df col :
  numeric df (col ++ "_mean_全体") -> numeric df col ->
  exists xs ys,
    add_opponent df col
    = Ok (set_col (set_col df (col ++ "_敵平均") (map CNum xs))
            (col ++ "_差") (map CNum ys)).
Proof.
  intros Hm Hc. unfold add_opponent. rewrite (numeric_has_col _ _ Hm).
  destruct (derive2_ok opponent_mean _ _ (col ++ "_敵平均") df Hm Hc) as (xs & ->).
  simpl rbind.
  destruct (derive2_ok opponent_delta col (col ++ "_敵平均") (col ++ "_差")
              (set_col df (col ++ "_敵平均") (map CNum xs))) as (ys & ->).
  - apply numeric_set_col_any; [apply no_str_map; reflexivity|exact Hc].
  - apply numeric_set_col_same. apply no_str_map; reflexivity.
  - eauto.
Qed.

Ltac nostr :=
  first
    [ assumption
    | apply no_str_map; intros;
      unfold clean_mean_st, clean_rate, numeric_or_zero, clean_text, clean_weight, flag;
      rewrite ?is_str_fillna, ?to_numeric_cell_not_text; reflexivity
    | unfold map2; apply no_str_map; intros;
      unfold flag; rewrite ?is_str_fillna, ?to_numeric_cell_not_text; reflexivity ].

Ltac transport d d' Hd' :=
  repeat match goal with
    | H : numeric d ?c |- _ =>
        let H' := fresh "Nm" in
        assert (H' : numeric d' c)
          by (rewrite Hd'; apply numeric_set_col_any; [nostr|exact H]);
        clear H
    | H : has_col ?c d = true |- _ =>
        let H' := fresh "Hc" in
        assert (H' : has_col c d' = true)
          by (rewrite Hd'; apply has_col_set_col_keep; exact H);
        clear H
    | H : lookup ?c (columns d) = Some ?x |- _ =>
        let H' := fresh "Lk" in
        assert (H' : lookup c (columns d') = Some x)
          by (rewrite Hd'; unfold set_col; cbn [columns];
              rewrite lookup_replace_other; [exact H|discriminate]);
        clear H
    end.

Ltac transport_text d d' Hd' :=
  repeat match goal with
    | H : numeric d ?c |- _ =>
        let H' := fresh "Nm" in
        assert (H' : numeric d' c)
          by (rewrite Hd'; apply numeric_set_col_other; [discriminate|exact H]);
        clear H
    | H : has_col ?c d = true |- _ =>
        let H' := fresh "Hc" in
        assert (H' : has_col c d' = true)
          by (rewrite Hd'; apply has_col_set_col_keep; exact H);
        clear H
    end.

Ltac pure_set :=
  match goal with
  | |- context [set_col ?d ?c ?v] =>
      is_var d;
      let d' := fresh "d" in
      let Hd' := fresh "Hd" in
      remember (set_col d c v) as d' eqn:Hd';
      let Hn := fresh "Nm" in
      assert (Hn : numeric d' c) by (rewrite Hd'; apply numeric_set_col_same; nostr);
      transport d d' Hd'; clear Hd'
  end.

Ltac pure_set_text :=
  match goal with
  | |- context [set_col ?d ?c (map CStr ?v)] =>
      is_var d;
      let d' := fresh "d" in
      let Hd' := fresh "Hd" in
      remember (set_col d c (map CStr v)) as d' eqn:Hd';
      transport_text d d' Hd'; clear Hd'
  end.

Ltac pure_update :=
  match goal with
  | Hc : has_col ?c ?d = true |- context [update_col ?f ?d ?c] =>
      let v := fresh "v" in
      let Hu := fresh "Hu" in
      destruct (update_col_as_set f d c Hc) as (v & Hu);
      rewrite Hu; clear Hu; pure_set
  end.

Ltac enter :=
  lazymatch goal with
  | |- exists out, rbind (Ok ?x) ?k = Ok out =>
      change (exists out, k x = Ok out); cbv beta
  end.

Ltac decide_has_col :=
  repeat match goal with
    | |- context [has_col ?c ?d] =>
        first [ match goal with H : has_col c d = true |- _ => rewrite H end
              | match goal with H : numeric d c |- _ => rewrite (numeric_has_col d c H) end ]
    end;
  cbn [andb]; cbv iota.

Ltac bind_step :=
  lazymatch goal with
  | |- exists out, rbind (rbind _ _) _ = Ok out => rewrite rbind_assoc
  | |- exists out, rbind (Ok (set_col _ _ _)) _ = Ok out => repeat pure_set; enter
  | |- exists out, rbind (Ok ?x) _ = Ok out => enter
  | |- exists out, rbind (derive2 ?f ?a ?b ?name ?d) _ = Ok out =>
      first
        [ is_var d;
          match goal with
          | Ha : numeric d a, Hb : numeric d b |- _ =>
              let xs := fresh "xs" in
              let Heq := fresh "Heq" in
              destruct (derive2_ok f a b name d Ha Hb) as (xs & Heq);
              rewrite Heq; clear Heq; pure_set; enter
          end
        | first [pure_update | pure_set] ]
  | |- exists out, rbind (derive1 ?f ?a ?name ?d) _ = Ok out =>
      first
        [ is_var d;
          match goal with
          | Ha : numeric d a |- _ =>
              let xs := fresh "xs" in
              let Heq := fresh "Heq" in
              destruct (derive1_ok f a name d Ha) as (xs & Heq);
              rewrite Heq; clear Heq; pure_set; enter
          end
        | first [pure_update | pure_set] ]
  | |- exists out, rbind (get_num ?d ?c) _ = Ok out =>
      first
        [ is_var d;
          match goal with
          | H : numeric d c |- _ =>
              let xs := fresh "xs" in
              let Heq := fresh "Heq" in
              destruct (get_num_ok d c H) as (xs & Heq);
              rewrite Heq; clear Heq; enter
          end
        | first [pure_update | pure_set] ]
  | |- exists out, rbind (get_col ?d ?c) _ = Ok out =>
      first
        [ is_var d;
          match goal with
          | H : has_col c d = true |- _ =>
              let v := fresh "col" in
              let Heq := fresh "Heq" in
              destruct (get_col_ok d c H) as (v & Heq);
              rewrite Heq; clear Heq; enter
          end
        | first [pure_update | pure_set] ]
  | |- exists out, rbind (foldM _ [] _) _ = Ok out => rewrite foldM_nil
  | |- exists out, rbind (foldM (add_race_stats ?ids) (?f :: _) ?d) _ = Ok out =>
      first
        [ is_var d;
          match goal with
          | H : numeric d f |- _ =>
              let xs := fresh "xs" in
              let ys := fresh "ys" in
              let zs := fresh "zs" in
              let Heq := fresh "Heq" in
              destruct (add_race_stats_ok ids d f H) as (xs & ys & zs & Heq);
              rewrite foldM_cons, Heq; clear Heq; cbn [String.append]
          end
        | pure_set_text ]
  | |- exists out, rbind (foldM add_opponent (?f :: _) ?d) _ = Ok out =>
      is_var d;
      let xs := fresh "xs" in
      let ys := fresh "ys" in
      let Heq := fresh "Heq" in
      destruct (add_opponent_ok d f) as (xs & ys & Heq);
      [ cbn [String.append]; assumption
      | assumption
      | rewrite foldM_cons, Heq; clear Heq; cbn [String.append] ]
  | |- exists out, rbind (if _ then _ else _) _ = Ok out => decide_has_col
  end.

(** Apart from the age and an out-of-range foul count, no field can stop
    derivation: when every age text starts with a float literal and every
    foul count fits int64, [derive] returns a table, whatever the other
    texts are. *)
Lemma derive_returns :
  forall (E : Pandas) (rs : list RawCompetitorRecord),
    (forall r, In r rs -> py_float (firstn 2 (age r)) <> None) ->
    (forall r, In r rs -> F_count_fits (F_count r) = true) ->
    exists out, derive E rs = Ok out.
Proof.
  intros E rs Hage HF. unfold derive, prepare_df. cbv zeta.
  unfold set_num, rate_columns, agg_features. cbn [fold_left].
  match goal with |- context [update_colM (clean_age E) ?d _] => set (d0 := d) end.
  assert (Lage : lookup "年齢" (columns d0) = Some (map (fun r => CStr (age r)) rs))
    by reflexivity.
  assert (LF : lookup "F数" (columns d0) = Some (map (fun r => CStr (F_count r)) rs))
    by reflexivity.
  assert (has_col "年齢" d0 = true) by reflexivity.
  assert (has_col "F数" d0 = true) by reflexivity.
  assert (has_col "体重" d0 = true) by reflexivity.
  assert (has_col "平均ST" d0 = true) by reflexivity.
  assert (has_col "クラス" d0 = true) by reflexivity.
  assert (has_col "勝率_全国" d0 = true) by reflexivity.
  assert (has_col "勝率_当地" d0 = true) by reflexivity.
  assert (has_col "2連率_全国" d0 = true) by reflexivity.
  assert (has_col "2連率_当地" d0 = true) by reflexivity.
  assert (has_col "3連率_全国" d0 = true) by reflexivity.
  assert (has_col "3連率_当地" d0 = true) by reflexivity.
  assert (has_col "モーター2連率" d0 = true) by reflexivity.
  assert (has_col "モーター3連率" d0 = true) by reflexivity.
  assert (has_col "ボート2連率" d0 = true) by reflexivity.
  assert (has_col "ボート3連率" d0 = true) by reflexivity.
  assert (has_col "コース" d0 = true) by reflexivity.
  assert (has_col "モーターナンバー" d0 = true) by reflexivity.
  assert (has_col "ボートナンバー" d0 = true) by reflexivity.
  assert (has_col "日" d0 = true) by reflexivity.
  assert (has_col "ラウンド" d0 = true) by reflexivity.
  assert (has_col "スタート展示" d0 = true) by reflexivity.
  assert (has_col "チルト" d0 = true) by reflexivity.
  clearbody d0.
  (* the ages *)
  destruct (update_colM_ok (clean_age E) d0 "年齢") as (ages & Heq & Hages);
    [assumption| |].
  { intros v Hv x Hx. rewrite Lage in Hv. inversion Hv; subst v.
    apply in_map_iff in Hx as (r & <- & Hr). unfold clean_age. simpl astype_str.
    destruct (py_float (firstn 2 (age r))) as [y|] eqn:Ey.
    - now exists (CNum y).
    - now destruct (Hage r Hr). }
  rewrite Heq; clear Heq Lage. pure_set. enter.
  do 2 pure_update.
  (* the foul counts *)
  match goal with |- context [update_colM (clean_f_count E) ?d _] =>
    destruct (update_colM_ok (clean_f_count E) d "F数") as (fs & Heq & Hfs);
      [assumption| |]
  end.
  { intros w Hw x Hx.
    match goal with L : lookup "F数" _ = Some (map _ _) |- _ => rewrite L in Hw end.
    inversion Hw; subst w.
    apply in_map_iff in Hx as (r & <- & Hr). unfold clean_f_count. simpl astype_str.
    specialize (HF r Hr). unfold F_count_fits in HF.
    destruct (extract_digits (F_count r)) as [digits|].
    - rewrite HF. eexists; split; reflexivity.
    - eexists; split; reflexivity. }
  rewrite Heq; clear Heq. pure_set. enter.
  repeat bind_step.
  eexists. reflexivity.
Qed.

(** ** The opponent columns are computed by the formulas *)

Lemma mapM_as_float_CNum xs : mapM as_float (map CNum xs) = Ok xs.
Proof. induction xs as [|x xs IH]; simpl; [reflexivity|now rewrite IH]. Qed.

Lemma get_num_set_num_same df c xs : get_num (set_num df c xs) c = Ok xs.
Proof.
  unfold get_num, set_num. rewrite get_col_set_col_same. apply mapM_as_float_CNum.
Qed.

Lemma get_num_set_num_other df c c' xs :
  c' <> c -> get_num (set_num df c' xs) c = get_num df c.
Proof. intros H. unfold get_num, set_num. now rewrite get_col_set_col_other. Qed.

Lemma append_length_string (a b : string) :
  String.length (a ++ b) = (String.length a + String.length b)%nat.
Proof. induction a as [|c a IH]; simpl; [reflexivity|now rewrite IH]. Qed.

Lemma append_suffix_neq (a b : string) : b <> ""%string -> (a ++ b)%string <> a.
Proof.
  intros Hb E. apply (f_equal String.length) in E.
  rewrite append_length_string in E. destruct b; [contradiction|simpl in E; lia].
Qed.

(** Lines 184-189: whenever the group-mean column exists, the opponent
    mean and the opponent delta of a feature are the two formulas applied
    row by row. *)
Lemma add_opponent_spec df col ms xs :
  get_num df (col ++ "_mean_全体") = Ok ms ->
  get_num df col = Ok xs ->
  add_opponent df col
  = Ok (set_num (set_num df (col ++ "_敵平均") (map2 opponent_mean ms xs))
          (col ++ "_差")
          (map2 opponent_delta xs (map2 opponent_mean ms xs))).
Proof.
  intros Hm Hx. unfold add_opponent.
  assert (Hc : has_col (col ++ "_mean_全体") df = true).
  { unfold get_num, get_col in Hm.
    destruct (lookup _ (columns df)) eqn:E; [|discriminate].
    now apply lookup_some_mem in E. }
  rewrite Hc. unfold derive2 at 1. rewrite Hm, Hx. simpl rbind.
  unfold derive2.
  rewrite get_num_set_num_other, Hx, get_num_set_num_same; [reflexivity|].
  apply append_suffix_neq. discriminate.
Qed.

(** On the demonstration batch the derived table holds, for the national
    win rate, the group mean of the six values on every row, and the
    opponent mean and delta that the formulas give. *)
Example derive_opponent_columns :
  match derive pandas_ref demo_records with
  | Ok out =>
      match get_num out "勝率_全国", get_num out "勝率_全国_mean_全体",
            get_num out "勝率_全国_敵平均", get_num out "勝率_全国_差" with
      | Ok xs, Ok ms, Ok opp, Ok delta =>
          ms = repeat (mean xs) 6
          /\ opp = map2 opponent_mean ms xs
          /\ delta = map2 opponent_delta xs opp
      | _, _, _, _ => False
      end
  | Raise _ => False
  end.
Proof. vm_compute. repeat split. Qed.

(** The ranks of the exhibition times [6.8, 6.5, 6.5, 7.0, 6.9, 6.6]. *)
Example exhibition_ranks :
  rank_min pystr_eqb (repeat (u "05_3") 6) [6.8; 6.5; 6.5; 7.0; 6.9; 6.6]%float
  = [4; 1; 1; 6; 5; 3]%float.
Proof. vm_compute. reflexivity. Qed.
Local Close Scope string_scope.
